(** * Quote calculation engine of the hardware quotation demo

    A shallow embedding of the calculation functions of [app.py] (the
    BOM-driven engine) and of [app_backup.py] (the older, template-driven
    variant), followed by the properties of the quotation engine.

    Modelling conventions.
    - A Python [float] is modelled by an exact rational ([Q]); equality of
      two computed amounts is therefore [Qeq] ([==]).  Rounding, infinities
      and NaN are outside the model.
    - A Python [int] is a [Z].
    - A JSON object read with [d.get(key, default)] is a record whose field
      is an [option]; [None] stands for an absent key and [default] supplies
      the fallback written in the source.  A field read with [d[key]] is a
      plain field.
    - A [Dict[str, dict]] catalogue is a [gmap string _].
    - [st.warning] calls are collected in a log carried by the loop state. *)

From Stdlib Require Import ZArith QArith Qround Qabs Lia Lqa.
From stdpp Require Import gmap strings list sorting.

Local Open Scope Z_scope.

(** ** Python built-ins used by the engine *)

Section PythonBuiltins.
Context {A : Type}.

(** [sorted(l, key=...)]: Python's sort is stable, so it is the insertion
    of every element in front of the first element whose key is not
    smaller.  [leb x y] is [key x <= key y]. *)
Fixpoint insert_sorted (leb : A -> A -> bool) (x : A) (l : list A) : list A :=
  match l with
  | [] => [x]
  | y :: l' => if leb x y then x :: y :: l' else y :: insert_sorted leb x l'
  end.

Fixpoint sorted (leb : A -> A -> bool) (l : list A) : list A :=
  match l with
  | [] => []
  | x :: l' => insert_sorted leb x (sorted leb l')
  end.

(** [next(r for r in l if p r)]: [None] stands for [StopIteration]. *)
Definition next (p : A -> bool) (l : list A) : option A := List.find p l.
End PythonBuiltins.

(** Comparisons on floats. *)
Definition Qltb (x y : Q) : bool := negb (Qle_bool y x).
Definition Qgtb (x y : Q) : bool := Qltb y x.

(** [max(a, b)] keeps [a] unless [b > a]; [min(l)] keeps the first smallest
    item. *)
Definition py_max (a b : Q) : Q := if Qgtb b a then b else a.

Definition py_min (d : Q) (l : list Q) : Q :=
  fold_left (fun m x => if Qltb x m then x else m) l d.

(** [float(n)] for an [int], and true division of two [int]s. *)
Definition float (n : Z) : Q := inject_Z n.
Definition truediv (a b : Z) : Q := (float a / float b)%Q.

(** ** Catalogue records *)

Record tier := {
  min_qty : Z;
  max_qty : option Z;
  multiplier : Q;
  label : option string
}.

Record process_def := {
  proc_name : option string;
  unit_rate_per_min : option Q;
  setup_cost : option Q
}.

(** The empty dict [{}] used as the default of [processes_map.get]. *)
Definition empty_process : process_def :=
  {| proc_name := None; unit_rate_per_min := None; setup_cost := None |}.

Record process_step := {
  enabled : option bool;
  process_code : option string;
  minutes_per_unit : option Q
}.

Record process_row := {
  row_part_code : string;
  row_process_code : option string;
  row_name : option string;
  row_minutes_per_unit : Q;
  row_rate_per_min : Q;
  row_qty : Z;
  row_runtime_cost : Q;
  row_setup_cost : Q;
  row_total_cost : Q
}.

Record sheet_option := {
  sheet_length_mm : option Q;
  sheet_width_mm : option Q;
  opt_thickness_mm : option Q;
  sheet_price : option Q
}.

Record part := {
  part_code : string;
  part_name : option string;
  material_code : option string;
  thickness_mm : option Q;
  blank_length_mm : option Q;
  blank_width_mm : option Q;
  allow_rotate : option bool;
  edge_margin_mm : option Q;
  kerf_mm : option Q;
  nest_efficiency : option Q;
  process_steps : option (list process_step)
}.

Record layout := {
  count_a : Z;
  count_b : Z;
  raw_count : Z;
  pieces_per_sheet_calc : Z;
  pieces_per_sheet : Z;
  sheets_needed : Z
}.

(** The label [f'{length}x{width}x{thickness}mm'] of a sheet row is kept as
    the triple of the three formatted values; two labels are the same
    string when the three values agree. *)
Definition sheet_spec : Type := option Q * option Q * option Q.

Definition optQ_eqb (a b : option Q) : bool :=
  match a, b with
  | Some x, Some y => Qeq_bool x y
  | None, None => true
  | _, _ => false
  end.

Definition sheet_spec_eqb (a b : sheet_spec) : bool :=
  let '(a1, a2, a3) := a in
  let '(b1, b2, b3) := b in
  optQ_eqb a1 b1 && optQ_eqb a2 b2 && optQ_eqb a3 b3.

Record sheet_row := {
  row_sheet_spec : sheet_spec;
  row_sheet_price : Q;
  row_pieces_per_sheet : Z;
  row_sheets_needed : Z;
  material_cost : Q;
  row_sheet_option : sheet_option;
  calc : layout
}.

Record material := {
  pricing_mode : option string;
  sheet_options : option (list sheet_option)
}.

(** The empty dict [{}] used as the default of [materials_map.get]. *)
Definition empty_material : material :=
  {| pricing_mode := None; sheet_options := None |}.

Record purchased_item := {
  item_code : string;
  item_name : option string;
  uom : option string;
  unit_cost : option Q;
  waste_pct : option Q;
  moq_qty : option Q
}.

Inductive packaging_type := per_unit | per_carton.

(** An entry of [packaging_map]: the rule with the ["type"] tag added when
    the map is built. *)
Record packaging_rule := {
  rule_type : packaging_type;
  rule_item_code : string;
  rule_unit_cost : option Q;
  rule_qty_per_unit : option Q;
  rule_qty_per_carton : option Q;
  rule_units_per_carton : option Z
}.

Record bom_line := {
  line_type : option string;
  code : option string;
  qty_per_unit : option Q;
  optional : option bool
}.

Record product := {
  sku : string;
  name : option string;
  units_per_carton : option Z;
  bom_lines : option (list bom_line)
}.

(** What the part branch keeps of the chosen sheet: the recommended row, or
    the row recomputed under an engineering override. *)
Record sheet_result := {
  res_sheet_spec : sheet_spec;
  res_sheet_price : Q;
  res_pieces_per_sheet : Z;
  res_sheets_needed : Z;
  res_material_cost : Q
}.

Record alternative_row := {
  alt_part_code : string;
  alt_sheet_spec : sheet_spec;
  alt_sheet_price : Q;
  alt_pieces_per_sheet : Z;
  alt_sheets_needed : Z;
  alt_material_cost : Q
}.

Record bom_row := {
  bom_line_type : string;
  bom_code : string;
  bom_name : option string;
  bom_qty_total : Q;
  bom_uom : option string;
  bom_unit_cost : option Q;
  bom_line_total : Q;
  bom_material_cost : Q;
  bom_process_cost : Q;
  bom_sheet_spec : option sheet_spec;
  bom_pieces_per_sheet : option Z;
  bom_sheets_needed : option Z;
  bom_optional : bool
}.

(** The four [st.warning] messages of the BOM loop, with the code they
    print. *)
Inductive warning :=
| PartNotFound (c : option string)
| PurchasedNotFound (c : option string)
| PackagingNotFound (c : option string)
| NoSheetOptions (c : option string).

(** The accumulators of the BOM loop of [render_quote_tab]. *)
Record quote_state := {
  bom_rows : list bom_row;
  process_breakdown : list process_row;
  alternatives_export : list alternative_row;
  material_total : Q;
  process_total : Q;
  purchased_total : Q;
  packaging_total : Q;
  warnings : list warning
}.

(** The figures computed after the loop. *)
Record rollup := {
  subtotal : Q;
  overhead : Q;
  pre_tax : Q;
  tax : Q;
  total_cost : Q;
  tier_multiplier : Q;
  matched_tier : option tier;
  final_price_total : Q;
  unit_price : Q
}.

(** ** [app.py] *)

Module App.

(** [find_multiplier], lines 50-61. *)
Definition tier_matches (qty : Z) (t : tier) : bool :=
  (qty >=? min_qty t)
  && match max_qty t with
     | None => true
     | Some max_q => qty <=? max_q
     end.

Definition by_min_qty (a b : tier) : bool := min_qty a <=? min_qty b.

Definition find_multiplier (tiers : list tier) (qty : Z) : Q * option tier :=
  let candidate :=
    fold_left (fun candidate t => if tier_matches qty t then Some t else candidate)
              (sorted by_min_qty tiers) None in
  let candidate :=
    match candidate, tiers with
    | None, _ :: _ => head (sorted by_min_qty tiers)
    | _, _ => candidate
    end in
  match candidate with
  | None => (1%Q, None)
  | Some c => (multiplier c, Some c)
  end.

(** [compute_process_costs], lines 64-96.  [is_enabled] is the test of
    line 73, [lookup_process] the catalogue access of lines 75-76 and
    [process_row_of] the row built in lines 77-95; the loop body is a step
    on the pair of accumulators [(total, breakdown)]. *)
Definition is_enabled (step : process_step) : bool :=
  default true (enabled step).

Definition lookup_process (processes_map : gmap string process_def)
    (step : process_step) : process_def :=
  default empty_process (process_code step ≫= (processes_map !!.)).

Definition process_row_of (processes_map : gmap string process_def)
    (qty : Z) (part_code : string) (step : process_step) : process_row :=
  let code := process_code step in
  let meta := lookup_process processes_map step in
  let minutes := default 0%Q (minutes_per_unit step) in
  let rate_per_min := default 0%Q (unit_rate_per_min meta) in
  let setup := default 0%Q (setup_cost meta) in
  let runtime_cost := (minutes * rate_per_min * float qty)%Q in
  let process_total := (runtime_cost + setup)%Q in
  {| row_part_code := part_code;
     row_process_code := code;
     row_name := match proc_name meta with
                 | Some n => Some n
                 | None => code
                 end;
     row_minutes_per_unit := minutes;
     row_rate_per_min := rate_per_min;
     row_qty := qty;
     row_runtime_cost := runtime_cost;
     row_setup_cost := setup;
     row_total_cost := process_total |}.

Definition process_step_body (processes_map : gmap string process_def)
    (qty : Z) (part_code : string)
    (acc : Q * list process_row) (step : process_step) : Q * list process_row :=
  let '(total, breakdown) := acc in
  if negb (is_enabled step) then acc
  else
    let row := process_row_of processes_map qty part_code step in
    ((total + row_total_cost row)%Q, breakdown ++ [row]).

Definition compute_process_costs (steps : list process_step)
    (processes_map : gmap string process_def) (qty : Z) (part_code : string)
    : Q * list process_row :=
  fold_left (process_step_body processes_map qty part_code) steps (0%Q, []).

(** [compute_sheet_layout], lines 99-143.  [usable_L], [usable_W],
    [pitch_L] and [pitch_W] are lines 114-117; [fit usable pitch] is the
    expression [math.floor(usable / pitch) if pitch > 0 else 0] of lines
    119-120 and 127-128. *)
Definition usable_L (sheet_opt : sheet_option) (p : part) : Q :=
  py_max (default 0%Q (sheet_length_mm sheet_opt) - 2 * default 10%Q (edge_margin_mm p))%Q
         0%Q.

Definition usable_W (sheet_opt : sheet_option) (p : part) : Q :=
  py_max (default 0%Q (sheet_width_mm sheet_opt) - 2 * default 10%Q (edge_margin_mm p))%Q
         0%Q.

Definition pitch_L (p : part) : Q :=
  (default 0%Q (blank_length_mm p) + default 2%Q (kerf_mm p))%Q.

Definition pitch_W (p : part) : Q :=
  (default 0%Q (blank_width_mm p) + default 2%Q (kerf_mm p))%Q.

Definition fit (usable pitch : Q) : Z :=
  if Qgtb pitch 0 then Qfloor (usable / pitch) else 0.

Definition compute_sheet_layout (sheet_opt : sheet_option) (p : part)
    (qty : Z) (pieces_override : option Z) : layout :=
  let rotate := default true (allow_rotate p) in
  let nest_eff := default 0.85%Q (nest_efficiency p) in
  let nx_a := fit (usable_L sheet_opt p) (pitch_L p) in
  let ny_a := fit (usable_W sheet_opt p) (pitch_W p) in
  let cnt_a := nx_a * ny_a in
  let cnt_b :=
    if rotate then
      let nx_b := fit (usable_L sheet_opt p) (pitch_W p) in
      let ny_b := fit (usable_W sheet_opt p) (pitch_L p) in
      nx_b * ny_b
    else 0 in
  let raw := Z.max cnt_a cnt_b in
  let pieces_calc :=
    if raw >? 0 then Z.max 1 (Qfloor (float raw * nest_eff)) else 1 in
  let pieces :=
    match pieces_override with
    | Some o => if negb (o =? 0) && (o >? 0) then o else pieces_calc
    | None => pieces_calc
    end in
  let needed :=
    if pieces >? 0 then Qceiling (truediv qty pieces) else qty in
  {| count_a := cnt_a;
     count_b := cnt_b;
     raw_count := raw;
     pieces_per_sheet_calc := pieces_calc;
     pieces_per_sheet := pieces;
     sheets_needed := needed |}.

(** [evaluate_sheet_options], lines 146-177. *)
Definition thickness_diff (p : part) (opt : sheet_option) : Q :=
  Qabs (default 0%Q (opt_thickness_mm opt) - default 0%Q (thickness_mm p)).

Definition sheet_row_of (p : part) (qty : Z) (opt : sheet_option) : sheet_row :=
  let c := compute_sheet_layout opt p qty None in
  let cost := (float (sheets_needed c) * default 0%Q (sheet_price opt))%Q in
  {| row_sheet_spec := (sheet_length_mm opt, sheet_width_mm opt, opt_thickness_mm opt);
     row_sheet_price := default 0%Q (sheet_price opt);
     row_pieces_per_sheet := pieces_per_sheet c;
     row_sheets_needed := sheets_needed c;
     material_cost := cost;
     row_sheet_option := opt;
     calc := c |}.

Definition by_material_cost (a b : sheet_row) : bool :=
  Qle_bool (material_cost a) (material_cost b).

Definition evaluate_sheet_options (sheet_options : list sheet_option)
    (p : part) (qty : Z) : list sheet_row * option sheet_row :=
  match sheet_options with
  | [] => ([], None)
  | _ :: _ =>
    let diffs := map (thickness_diff p) sheet_options in
    let min_diff :=
      match diffs with
      | [] => 0%Q
      | d :: ds => py_min d ds
      end in
    let candidates :=
      List.filter (fun opt => Qeq_bool (thickness_diff p opt) min_diff) sheet_options in
    let rows := map (sheet_row_of p qty) candidates in
    let rows_sorted := sorted by_material_cost rows in
    (rows_sorted, head rows_sorted)
  end.

(** The BOM loop of [render_quote_tab], lines 386-595.  The catalogue
    maps, the selected product, the quantity and the engineering-override
    widgets are fixed for one run.  [override_widgets idx] is [None] when
    the check box of row [idx] is off, and the selected sheet label and
    the entered pieces-per-sheet when it is on. *)
Section BomLoop.
Variable parts_map : gmap string part.
Variable materials_map : gmap string material.
Variable processes_map : gmap string process_def.
Variable purchased_map : gmap string purchased_item.
Variable packaging_map : gmap string packaging_rule.
Variable prod : product.
Variable qty : Z.
Variable override_widgets : nat -> option (sheet_spec * Z).

Definition warn (w : warning) (s : quote_state) : quote_state :=
  {| bom_rows := bom_rows s;
     process_breakdown := process_breakdown s;
     alternatives_export := alternatives_export s;
     material_total := material_total s;
     process_total := process_total s;
     purchased_total := purchased_total s;
     packaging_total := packaging_total s;
     warnings := warnings s ++ [w] |}.

Definition result_of_row (r : sheet_row) : sheet_result :=
  {| res_sheet_spec := row_sheet_spec r;
     res_sheet_price := row_sheet_price r;
     res_pieces_per_sheet := row_pieces_per_sheet r;
     res_sheets_needed := row_sheets_needed r;
     res_material_cost := material_cost r |}.

Definition alternative_of (p : part) (r : sheet_row) : alternative_row :=
  {| alt_part_code := part_code p;
     alt_sheet_spec := row_sheet_spec r;
     alt_sheet_price := row_sheet_price r;
     alt_pieces_per_sheet := row_pieces_per_sheet r;
     alt_sheets_needed := row_sheets_needed r;
     alt_material_cost := material_cost r |}.

(** Lines 413-491: the sheet chosen for a part, the alternatives to
    export and the warning raised, if any. *)
Definition choose_sheet (idx : nat) (line_code : option string) (p : part)
    (part_qty : Z)
    : option (option sheet_result * list alternative_row * list warning) :=
  let mat := default empty_material (materials_map !! default "" (material_code p)) in
  if String.eqb (default "by_weight" (pricing_mode mat)) "by_sheet" then
    let '(rows, recommended) :=
      evaluate_sheet_options (default [] (sheet_options mat)) p part_qty in
    match recommended with
    | Some rec =>
      let alts := map (alternative_of p) rows in
      match override_widgets idx with
      | None => Some (Some (result_of_row rec), alts, [])
      | Some (selected, pieces_override) =>
        selected_row ← next (fun r => sheet_spec_eqb (row_sheet_spec r) selected) rows;
        let c := compute_sheet_layout (row_sheet_option selected_row) p part_qty
                                      (Some pieces_override) in
        let cost :=
          (float (sheets_needed c)
           * default 0%Q (sheet_price (row_sheet_option selected_row)))%Q in
        Some (Some {| res_sheet_spec := row_sheet_spec selected_row;
                      res_sheet_price := row_sheet_price selected_row;
                      res_pieces_per_sheet := pieces_per_sheet c;
                      res_sheets_needed := sheets_needed c;
                      res_material_cost := cost |},
              alts, [])
      end
    | None => Some (None, [], [NoSheetOptions line_code])
    end
  else Some (None, [], []).

(** Lines 406-532: a BOM line whose part was found. *)
Definition part_line (s : quote_state) (idx : nat) (line : bom_line) (p : part)
    : option quote_state :=
  let part_qty := Qceiling (float qty * default 1%Q (qty_per_unit line)) in
  '(sheet_res, alts, warns) ← choose_sheet idx (code line) p part_qty;
  let mat_cost :=
    match sheet_res with
    | Some r => res_material_cost r
    | None => 0%Q
    end in
  let '(process_cost, process_rows) :=
    compute_process_costs (default [] (process_steps p)) processes_map
                          part_qty (part_code p) in
  let line_total := (mat_cost + process_cost)%Q in
  Some {| bom_rows :=
            bom_rows s ++
            [ {| bom_line_type := "part";
                 bom_code := part_code p;
                 bom_name := part_name p;
                 bom_qty_total := float part_qty;
                 bom_uom := Some "pc"%string;
                 bom_unit_cost :=
                   Some (if part_qty =? 0 then 0%Q
                         else (line_total / float part_qty)%Q);
                 bom_line_total := line_total;
                 bom_material_cost := mat_cost;
                 bom_process_cost := process_cost;
                 bom_sheet_spec := res_sheet_spec <$> sheet_res;
                 bom_pieces_per_sheet := res_pieces_per_sheet <$> sheet_res;
                 bom_sheets_needed := res_sheets_needed <$> sheet_res;
                 bom_optional := default false (optional line) |} ];
          process_breakdown := process_breakdown s ++ process_rows;
          alternatives_export := alternatives_export s ++ alts;
          material_total := (material_total s + mat_cost)%Q;
          process_total := (process_total s + process_cost)%Q;
          purchased_total := purchased_total s;
          packaging_total := packaging_total s;
          warnings := warnings s ++ warns |}.

(** Lines 539-561: a BOM line whose purchased item was found. *)
Definition purchased_line (s : quote_state) (line : bom_line)
    (item : purchased_item) : quote_state :=
  let base_qty := (float qty * default 1%Q (qty_per_unit line))%Q in
  let waste := default 0%Q (waste_pct item) in
  let total_qty :=
    match moq_qty item with
    | Some moq => if Qeq_bool moq 0 then base_qty else py_max base_qty moq
    | None => base_qty
    end in
  let line_total := (total_qty * default 0%Q (unit_cost item) * (1 + waste))%Q in
  {| bom_rows :=
       bom_rows s ++
       [ {| bom_line_type := "purchased";
            bom_code := item_code item;
            bom_name := item_name item;
            bom_qty_total := total_qty;
            bom_uom := uom item;
            bom_unit_cost := unit_cost item;
            bom_line_total := line_total;
            bom_material_cost := 0%Q;
            bom_process_cost := 0%Q;
            bom_sheet_spec := None;
            bom_pieces_per_sheet := None;
            bom_sheets_needed := None;
            bom_optional := default false (optional line) |} ];
     process_breakdown := process_breakdown s;
     alternatives_export := alternatives_export s;
     material_total := material_total s;
     process_total := process_total s;
     purchased_total := (purchased_total s + line_total)%Q;
     packaging_total := packaging_total s;
     warnings := warnings s |}.

(** [a or b] on two optional integers: [a] when it is present and not
    zero, [b] otherwise. *)
Definition py_or (a b : option Z) : option Z :=
  match a with
  | Some n => if n =? 0 then b else a
  | None => b
  end.

(** Lines 568-595: a BOM line whose packaging rule was found. *)
Definition packaging_line (s : quote_state) (line : bom_line)
    (rule : packaging_rule) : quote_state :=
  let total_qty :=
    match rule_type rule with
    | per_unit =>
      let qty_per_unit_rule :=
        match qty_per_unit line with
        | Some q => q
        | None => default 1%Q (rule_qty_per_unit rule)
        end in
      (float qty * qty_per_unit_rule)%Q
    | per_carton =>
      let qty_per_carton := default 1%Q (rule_qty_per_carton rule) in
      let cartons :=
        match py_or (rule_units_per_carton rule) (units_per_carton prod) with
        | Some upc => if upc =? 0 then 0 else Qceiling (truediv qty upc)
        | None => 0
        end in
      (float cartons * qty_per_carton)%Q
    end in
  let line_total := (total_qty * default 0%Q (rule_unit_cost rule))%Q in
  {| bom_rows :=
       bom_rows s ++
       [ {| bom_line_type := "packaging";
            bom_code := rule_item_code rule;
            bom_name := Some (rule_item_code rule);
            bom_qty_total := total_qty;
            bom_uom := Some "pack"%string;
            bom_unit_cost := rule_unit_cost rule;
            bom_line_total := line_total;
            bom_material_cost := 0%Q;
            bom_process_cost := 0%Q;
            bom_sheet_spec := None;
            bom_pieces_per_sheet := None;
            bom_sheets_needed := None;
            bom_optional := default false (optional line) |} ];
     process_breakdown := process_breakdown s;
     alternatives_export := alternatives_export s;
     material_total := material_total s;
     process_total := process_total s;
     purchased_total := purchased_total s;
     packaging_total := (packaging_total s + line_total)%Q;
     warnings := warnings s |}.

(** One iteration of [for idx, line in enumerate(bom_lines)]; [None]
    stands for an exception that leaves the loop. *)
Definition bom_line_step (s : quote_state) (idx : nat) (line : bom_line)
    : option quote_state :=
  let ty := default "" (line_type line) in
  if String.eqb ty "part" then
    match code line ≫= (parts_map !!.) with
    | None => Some (warn (PartNotFound (code line)) s)
    | Some p => part_line s idx line p
    end
  else if String.eqb ty "purchased" then
    match code line ≫= (purchased_map !!.) with
    | None => Some (warn (PurchasedNotFound (code line)) s)
    | Some item => Some (purchased_line s line item)
    end
  else if String.eqb ty "packaging" then
    match code line ≫= (packaging_map !!.) with
    | None => Some (warn (PackagingNotFound (code line)) s)
    | Some rule => Some (packaging_line s line rule)
    end
  else Some s.

Fixpoint bom_loop (s : quote_state) (lines : list (nat * bom_line))
    : option quote_state :=
  match lines with
  | [] => Some s
  | (idx, line) :: rest =>
    match bom_line_step s idx line with
    | Some s' => bom_loop s' rest
    | None => None
    end
  end.

Definition enumerate (lines : list bom_line) : list (nat * bom_line) :=
  combine (seq 0 (length lines)) lines.

Definition initial_state : quote_state :=
  {| bom_rows := [];
     process_breakdown := [];
     alternatives_export := [];
     material_total := 0%Q;
     process_total := 0%Q;
     purchased_total := 0%Q;
     packaging_total := 0%Q;
     warnings := [] |}.

Definition price_bom : option quote_state :=
  bom_loop initial_state (enumerate (default [] (bom_lines prod))).
End BomLoop.

(** The rollup of [render_quote_tab], lines 597-611. *)
Definition margin_price (pricing : string) (cost margin_pct : Q) : Q :=
  if String.eqb pricing "gross_margin" then
    if Qltb margin_pct 1 then (cost / (1 - margin_pct))%Q else cost
  else (cost * (1 + margin_pct))%Q.

Definition quote_rollup (mat_total proc_total purch_total pack_total : Q)
    (shipping_per_order overhead_pct tax_pct margin_pct : Q)
    (pricing : string) (tiers : list tier) (qty : Z) : rollup :=
  let shipping_cost := shipping_per_order in
  let sub := (mat_total + proc_total + purch_total + pack_total + shipping_cost)%Q in
  let ovh := (sub * overhead_pct)%Q in
  let pre := (sub + ovh)%Q in
  let tx := (pre * tax_pct)%Q in
  let cost := (pre + tx)%Q in
  let price := margin_price pricing cost margin_pct in
  let '(mult, matched) := find_multiplier tiers qty in
  let price := (price * mult)%Q in
  {| subtotal := sub;
     overhead := ovh;
     pre_tax := pre;
     tax := tx;
     total_cost := cost;
     tier_multiplier := mult;
     matched_tier := matched;
     final_price_total := price;
     unit_price := if qty =? 0 then 0%Q else (price / float qty)%Q |}.

(** The catalogue maps built at the top of [render_quote_tab], lines
    288-299: a later record with the same code replaces an earlier one. *)
Definition index_by {V : Type} (key : V -> string) (l : list V) : gmap string V :=
  fold_left (fun m v => <[key v := v]> m) l ∅.

Definition tagged (ty : packaging_type) (r : packaging_rule) : packaging_rule :=
  {| rule_type := ty;
     rule_item_code := rule_item_code r;
     rule_unit_cost := rule_unit_cost r;
     rule_qty_per_unit := rule_qty_per_unit r;
     rule_qty_per_carton := rule_qty_per_carton r;
     rule_units_per_carton := rule_units_per_carton r |}.

Definition packaging_map_of (per_unit_rules per_carton_rules : list packaging_rule)
    : gmap string packaging_rule :=
  fold_left (fun m r => <[rule_item_code r := tagged per_carton r]> m) per_carton_rules
    (fold_left (fun m r => <[rule_item_code r := tagged per_unit r]> m) per_unit_rules ∅).

(** The computation of [render_quote_tab] from the loop to the unit
    price, lines 386-611. *)
Definition quote (parts : list part) (materials : list (string * material))
    (processes : list (string * process_def)) (purchased_items : list purchased_item)
    (per_unit_rules per_carton_rules : list packaging_rule)
    (quantity_tiers : list tier) (prod : product) (qty : Z)
    (override_widgets : nat -> option (sheet_spec * Z))
    (shipping_per_order overhead_pct tax_pct margin_pct : Q) (pricing : string)
    : option (quote_state * rollup) :=
  let materials_map := snd <$> index_by fst materials in
  let processes_map := snd <$> index_by fst processes in
  let parts_map := index_by part_code parts in
  let purchased_map := index_by item_code purchased_items in
  let packaging_map := packaging_map_of per_unit_rules per_carton_rules in
  s ← price_bom parts_map materials_map processes_map purchased_map packaging_map
                prod qty override_widgets;
  Some (s, quote_rollup (material_total s) (process_total s) (purchased_total s)
                        (packaging_total s) shipping_per_order overhead_pct tax_pct
                        margin_pct pricing quantity_tiers qty).

(** The quote cart kept in [st.session_state["quote_lines"]]: a line is
    appended by the add button (lines 675-697), the cart is summed and a
    line deleted in lines 772-793, and [main] empties it (lines 861-864). *)
Record quote_line := {
  line_id : Z;
  ql_sku : string;
  ql_product_name : option string;
  ql_qty : Z;
  ql_material_code : string;
  ql_unit_price : Q;
  ql_line_total : Q;
  ql_cost_total : Q;
  ql_margin_pct : Q;
  ql_tax_pct : Q;
  ql_overhead_pct : Q;
  ql_scrap_rate : Q;
  ql_process_summary : string;
  ql_process_cost : Q;
  ql_material_cost : Q;
  ql_packaging_cost : Q;
  ql_shipping_alloc : Q
}.

Definition add_quote_line (quote_lines : list quote_line) (prod : product) (qty : Z)
    (s : quote_state) (r : rollup) (margin_pct tax_pct overhead_pct scrap_rate : Q)
    : list quote_line :=
  let id := Z.of_nat (length quote_lines) + 1 in
  quote_lines ++
  [ {| line_id := id;
       ql_sku := sku prod;
       ql_product_name := name prod;
       ql_qty := qty;
       ql_material_code := "-";
       ql_unit_price := unit_price r;
       ql_line_total := final_price_total r;
       ql_cost_total := total_cost r;
       ql_margin_pct := margin_pct;
       ql_tax_pct := tax_pct;
       ql_overhead_pct := overhead_pct;
       ql_scrap_rate := scrap_rate;
       ql_process_summary := "BOM";
       ql_process_cost := process_total s;
       ql_material_cost := material_total s;
       ql_packaging_cost := packaging_total s;
       ql_shipping_alloc := 0%Q |} ].

(** [sum(float(line.get("line_total", 0.0)) for line in quote_lines)]. *)
Definition lines_subtotal (quote_lines : list quote_line) : Q :=
  fold_left (fun acc l => (acc + ql_line_total l)%Q) quote_lines 0%Q.

(** Lines 772-781: the three figures shown under the cart, and nothing for
    an empty cart. *)
Definition cart_totals (quote_lines : list quote_line) (order_shipping : Q)
    : option (Q * Q * Q) :=
  match quote_lines with
  | [] => None
  | _ :: _ =>
    let sub := lines_subtotal quote_lines in
    Some (sub, order_shipping, (sub + order_shipping)%Q)
  end.

(** Line 792: the delete button. *)
Definition delete_quote_line (selected_line : Z) (quote_lines : list quote_line)
    : list quote_line :=
  List.filter (fun l => negb (line_id l =? selected_line)) quote_lines.

End App.


(** ** [app_backup.py] *)

Module AppBackup.

(** [find_multiplier], lines 43-55. *)
Definition tier_matches (qty : Z) (t : tier) : bool :=
  (qty >=? min_qty t)
  && match max_qty t with
     | None => true
     | Some max_q => qty <=? max_q
     end.

Definition by_min_qty (a b : tier) : bool := min_qty a <=? min_qty b.

Definition find_multiplier (tiers : list tier) (qty : Z) : Q * option tier :=
  let candidate :=
    fold_left (fun candidate t => if tier_matches qty t then Some t else candidate)
              (sorted by_min_qty tiers) None in
  let candidate :=
    match candidate, tiers with
    | None, _ :: _ => head (sorted by_min_qty tiers)
    | _, _ => candidate
    end in
  match candidate with
  | None => (1%Q, None)
  | Some c => (multiplier c, Some c)
  end.

(** [compute_process_costs], lines 58-99: the template-driven variant.  A
    template process names its code with [proc["process_code"]]; the user
    inputs of a code default to the empty dict. *)
Record template_process := {
  tp_process_code : string;
  tp_minutes : option Q
}.

Record process_input := {
  ui_enabled : option bool;
  ui_basis : option string;
  ui_minutes : option Q
}.

Definition empty_input : process_input :=
  {| ui_enabled := None; ui_basis := None; ui_minutes := None |}.

Record template_row := {
  trow_process_code : string;
  trow_name : string;
  trow_basis : string;
  trow_minutes_per_unit : Q;
  trow_rate_per_min : Q;
  trow_qty : Z;
  trow_runtime_cost : Q;
  trow_setup_cost : Q;
  trow_total_cost : Q
}.

Definition process_body (processes_map : gmap string process_def) (qty : Z)
    (user_inputs : gmap string process_input)
    (acc : Q * list template_row) (proc : template_process) : Q * list template_row :=
  let '(total, breakdown) := acc in
  let code := tp_process_code proc in
  match processes_map !! code with
  | None => acc
  | Some meta =>
    let ui := default empty_input (user_inputs !! code) in
    if negb (default true (ui_enabled ui)) then acc
    else
      let basis := default "per_hour"%string (ui_basis ui) in
      let minutes :=
        match ui_minutes ui with
        | Some m => m
        | None => default 0%Q (tp_minutes proc)
        end in
      let rate_per_min := default 0%Q (unit_rate_per_min meta) in
      let setup := default 0%Q (setup_cost meta) in
      let runtime_cost :=
        if String.eqb basis "fixed" then 0%Q
        else (minutes * rate_per_min * float qty)%Q in
      let process_total := (runtime_cost + setup)%Q in
      ((total + process_total)%Q,
       breakdown ++
       [ {| trow_process_code := code;
            trow_name := default code (proc_name meta);
            trow_basis := basis;
            trow_minutes_per_unit := minutes;
            trow_rate_per_min := rate_per_min;
            trow_qty := if String.eqb basis "fixed" then 0 else qty;
            trow_runtime_cost := runtime_cost;
            trow_setup_cost := setup;
            trow_total_cost := process_total |} ])
  end.

Definition compute_process_costs (template_processes : list template_process)
    (processes_map : gmap string process_def) (qty : Z)
    (user_inputs : gmap string process_input) : Q * list template_row :=
  fold_left (process_body processes_map qty user_inputs) template_processes (0%Q, []).

(** [calculate_quote], lines 102-160.  The template names its material with
    [template["material_code"]]; an unknown material prices at 0. *)
Record template := {
  tpl_material_code : string;
  weight_kg_per_unit : option Q;
  default_processes : option (list template_process)
}.

Record weight_material := {
  price_per_kg : option Q
}.

Definition empty_weight_material : weight_material := {| price_per_kg := None |}.

Record summary := {
  sum_material_cost : Q;
  sum_process_cost : Q;
  sum_packaging_cost : Q;
  sum_shipping_cost : Q;
  sum_overhead : Q;
  sum_tax : Q;
  sum_subtotal : Q;
  sum_pre_tax : Q;
  sum_total_cost : Q;
  sum_final_price_total : Q;
  sum_unit_price : Q;
  sum_multiplier : Q
}.

Definition calculate_quote (tpl : template) (qty : Z)
    (scrap_rate overhead_pct tax_pct margin_pct : Q) (pricing : string)
    (packaging_per_piece shipping_per_order : Q)
    (materials_map : gmap string weight_material)
    (processes_map : gmap string process_def) (tiers : list tier)
    (process_inputs : gmap string process_input)
    : summary * list template_row * option tier :=
  let mat := default empty_weight_material (materials_map !! tpl_material_code tpl) in
  let material_price := default 0%Q (price_per_kg mat) in
  let weight := default 0%Q (weight_kg_per_unit tpl) in
  let mat_cost := (float qty * weight * material_price * (1 + scrap_rate))%Q in
  let '(proc_cost, process_breakdown) :=
    compute_process_costs (default [] (default_processes tpl)) processes_map qty
                          process_inputs in
  let pack_cost := (float qty * packaging_per_piece)%Q in
  let shipping_cost := shipping_per_order in
  let sub := (mat_cost + proc_cost + pack_cost + shipping_cost)%Q in
  let ovh := (sub * overhead_pct)%Q in
  let pre := (sub + ovh)%Q in
  let tx := (pre * tax_pct)%Q in
  let cost := (pre + tx)%Q in
  let price :=
    if String.eqb pricing "gross_margin" then
      if Qltb margin_pct 1 then (cost / (1 - margin_pct))%Q else cost
    else (cost * (1 + margin_pct))%Q in
  let '(mult, matched) := find_multiplier tiers qty in
  let price := (price * mult)%Q in
  ({| sum_material_cost := mat_cost;
      sum_process_cost := proc_cost;
      sum_packaging_cost := pack_cost;
      sum_shipping_cost := shipping_cost;
      sum_overhead := ovh;
      sum_tax := tx;
      sum_subtotal := sub;
      sum_pre_tax := pre;
      sum_total_cost := cost;
      sum_final_price_total := price;
      sum_unit_price := if qty =? 0 then 0%Q else (price / float qty)%Q;
      sum_multiplier := mult |},
   process_breakdown, matched).

End AppBackup.


(** * Specification vocabulary *)

Import App.

(** [qty] lies in the range of a tier; an absent [max_qty] leaves the range
    open. *)
Definition in_range (qty : Z) (t : tier) : Prop :=
  min_qty t <= qty /\
  match max_qty t with
  | Some max_q => qty <= max_q
  | None => True
  end.

Definition min_qty_le (a b : tier) : Prop := min_qty a <= min_qty b.

Fixpoint Qsum (l : list Q) : Q :=
  match l with
  | [] => 0%Q
  | x :: l' => (x + Qsum l')%Q
  end.

(** The catalogue has no entry for the code of the step. *)
Definition unknown_code (pm : gmap string process_def) (st : process_step) : Prop :=
  process_code st ≫= (pm !!.) = None.

Definition in_catalog (pm : gmap string process_def) (st : process_step) : bool :=
  match process_code st ≫= (pm !!.) with
  | Some _ => true
  | None => false
  end.

Definition catalog_setup_cost (pm : gmap string process_def) (st : process_step) : Q :=
  default 0%Q (setup_cost (lookup_process pm st)).

(** The part with another nesting efficiency, every other field kept. *)
Definition with_nest_efficiency (e : Q) (p : part) : part :=
  {| part_code := part_code p;
     part_name := part_name p;
     material_code := material_code p;
     thickness_mm := thickness_mm p;
     blank_length_mm := blank_length_mm p;
     blank_width_mm := blank_width_mm p;
     allow_rotate := allow_rotate p;
     edge_margin_mm := edge_margin_mm p;
     kerf_mm := kerf_mm p;
     nest_efficiency := Some e;
     process_steps := process_steps p |}.

Definition material_cost_le (a b : sheet_row) : Prop :=
  (material_cost a <= material_cost b)%Q.

(** The two states agree on the rows and on the four totals. *)
Definition same_costs (s1 s2 : quote_state) : Prop :=
  bom_rows s1 = bom_rows s2 /\
  process_breakdown s1 = process_breakdown s2 /\
  alternatives_export s1 = alternatives_export s2 /\
  material_total s1 = material_total s2 /\
  process_total s1 = process_total s2 /\
  purchased_total s1 = purchased_total s2 /\
  packaging_total s1 = packaging_total s2.

(** [s2] is [s1] with the one warning [w] more in its log. *)
Definition one_more_warning (w : warning) (s1 s2 : quote_state) : Prop :=
  same_costs s1 s2 /\
  exists before after,
    warnings s1 = before ++ after /\ warnings s2 = before ++ w :: after.

(** The product with another list of BOM lines. *)
Definition with_bom_lines (lines : list bom_line) (prod : product) : product :=
  {| sku := sku prod;
     name := name prod;
     units_per_carton := units_per_carton prod;
     bom_lines := Some lines |}.

(** The override widgets once row [n] is gone: the rows after it move up by
    one and take their widgets along. *)
Definition rekey (n : nat) (widgets : nat -> option (sheet_spec * Z))
    : nat -> option (sheet_spec * Z) :=
  fun k => if (k <? n)%nat then widgets k else widgets (S k).

(** A BOM line whose code is not in the catalogue of its type, with the
    warning it raises. *)
Inductive unresolved (parts_map : gmap string part)
    (purchased_map : gmap string purchased_item)
    (packaging_map : gmap string packaging_rule) : bom_line -> warning -> Prop :=
| unresolved_part line :
    line_type line = Some "part"%string ->
    code line ≫= (parts_map !!.) = None ->
    unresolved parts_map purchased_map packaging_map line (PartNotFound (code line))
| unresolved_purchased line :
    line_type line = Some "purchased"%string ->
    code line ≫= (purchased_map !!.) = None ->
    unresolved parts_map purchased_map packaging_map line (PurchasedNotFound (code line))
| unresolved_packaging line :
    line_type line = Some "packaging"%string ->
    code line ≫= (packaging_map !!.) = None ->
    unresolved parts_map purchased_map packaging_map line (PackagingNotFound (code line)).

(** The runtime charged for one unit by a step: minutes times rate. *)
Definition runtime_per_unit (pm : gmap string process_def) (st : process_step) : Q :=
  (default 0%Q (minutes_per_unit st)
   * default 0%Q (unit_rate_per_min (lookup_process pm st)))%Q.

(** The part with rotation allowed or not, every other field kept. *)
Definition with_allow_rotate (b : bool) (p : part) : part :=
  {| part_code := part_code p;
     part_name := part_name p;
     material_code := material_code p;
     thickness_mm := thickness_mm p;
     blank_length_mm := blank_length_mm p;
     blank_width_mm := blank_width_mm p;
     allow_rotate := Some b;
     edge_margin_mm := edge_margin_mm p;
     kerf_mm := kerf_mm p;
     nest_efficiency := nest_efficiency p;
     process_steps := process_steps p |}.

(** The least thickness difference over the options and the options at that
    difference, as [evaluate_sheet_options] computes them. *)
Definition least_diff (p : part) (opts : list sheet_option) : Q :=
  match map (thickness_diff p) opts with
  | [] => 0%Q
  | d :: ds => py_min d ds
  end.

Definition closest_options (p : part) (opts : list sheet_option) : list sheet_option :=
  List.filter (fun o => Qeq_bool (thickness_diff p o) (least_diff p opts)) opts.

(** The four totals of a state add up to the line totals of its BOM rows. *)
Definition totals_add_up (s : quote_state) : Prop :=
  (material_total s + process_total s + purchased_total s + packaging_total s
   == Qsum (map bom_line_total (bom_rows s)))%Q.

Definition rows_of_type (ty : string) (rows : list bom_row) : list bom_row :=
  List.filter (fun r => String.eqb (bom_line_type r) ty) rows.

(** Each total is the sum of its own column or of the rows of its type, and
    the process total is the sum of the process breakdown. *)
Definition buckets_add_up (s : quote_state) : Prop :=
  (process_total s == Qsum (map row_total_cost (process_breakdown s)))%Q /\
  (material_total s == Qsum (map bom_material_cost (bom_rows s)))%Q /\
  (process_total s == Qsum (map bom_process_cost (bom_rows s)))%Q /\
  (purchased_total s
   == Qsum (map bom_line_total (rows_of_type "purchased" (bom_rows s))))%Q /\
  (packaging_total s
   == Qsum (map bom_line_total (rows_of_type "packaging" (bom_rows s))))%Q.

(** The line is of one of the three types the loop prices. *)
Definition known_type (line : bom_line) : bool :=
  let ty := default ""%string (line_type line) in
  String.eqb ty "part" || String.eqb ty "purchased" || String.eqb ty "packaging".

(** The line is of a known type and its code is in the catalogue of that
    type. *)
Definition resolves (parts_map : gmap string part)
    (purchased_map : gmap string purchased_item)
    (packaging_map : gmap string packaging_rule) (line : bom_line) : bool :=
  let ty := default ""%string (line_type line) in
  if String.eqb ty "part" then
    match code line ≫= (parts_map !!.) with Some _ => true | None => false end
  else if String.eqb ty "purchased" then
    match code line ≫= (purchased_map !!.) with Some _ => true | None => false end
  else if String.eqb ty "packaging" then
    match code line ≫= (packaging_map !!.) with Some _ => true | None => false end
  else false.

(** The material record a part line is priced with, and whether that sends
    the part to the sheet selection. *)
Definition material_of (materials_map : gmap string material) (p : part) : material :=
  default empty_material (materials_map !! default ""%string (material_code p)).

Definition priced_by_sheet (materials_map : gmap string material) (p : part) : bool :=
  String.eqb (default "by_weight"%string (pricing_mode (material_of materials_map p)))
             "by_sheet".

(** The ids of a cart are 1, 2, ... in order. *)
Definition sequential_ids (cart : list quote_line) : Prop :=
  map line_id cart = map Z.of_nat (seq 1 (length cart)).

(** * Sample catalogue *)

Definition demo_tiers : list tier :=
  [ {| min_qty := 1; max_qty := Some 49; multiplier := 1%Q; label := None |};
    {| min_qty := 50; max_qty := None; multiplier := 0.9%Q; label := None |} ].

Definition cut_process : process_def :=
  {| proc_name := Some "Laser cut"%string;
     unit_rate_per_min := Some 1.5%Q;
     setup_cost := Some 40%Q |}.

Definition demo_processes : gmap string process_def := {[ "CUT"%string := cut_process ]}.

Definition cut_step : process_step :=
  {| enabled := None; process_code := Some "CUT"%string; minutes_per_unit := Some 2%Q |}.

Definition unlisted_step : process_step :=
  {| enabled := Some true; process_code := Some "P404"%string; minutes_per_unit := Some 5%Q |}.

Definition demo_sheet : sheet_option :=
  {| sheet_length_mm := Some 2440%Q;
     sheet_width_mm := Some 1220%Q;
     opt_thickness_mm := Some 1.5%Q;
     sheet_price := Some 320%Q |}.

Definition demo_part : part :=
  {| part_code := "PART-1";
     part_name := None;
     material_code := Some "SS304"%string;
     thickness_mm := Some 1.5%Q;
     blank_length_mm := Some 300%Q;
     blank_width_mm := Some 200%Q;
     allow_rotate := None;
     edge_margin_mm := None;
     kerf_mm := None;
     nest_efficiency := None;
     process_steps := Some [cut_step] |}.

Definition thick_sheet : sheet_option :=
  {| sheet_length_mm := Some 3000%Q;
     sheet_width_mm := Some 1500%Q;
     opt_thickness_mm := Some 2%Q;
     sheet_price := Some 100%Q |}.

Definition small_sheet : sheet_option :=
  {| sheet_length_mm := Some 2000%Q;
     sheet_width_mm := Some 1000%Q;
     opt_thickness_mm := Some 1.5%Q;
     sheet_price := Some 200%Q |}.

Definition demo_sheets : list sheet_option := [thick_sheet; demo_sheet; small_sheet].

Definition demo_materials : gmap string material :=
  {[ "SS304"%string := {| pricing_mode := Some "by_sheet"%string;
                          sheet_options := Some demo_sheets |} ]}.

Definition demo_parts : gmap string part := {[ "PART-1"%string := demo_part ]}.

Definition demo_purchased : gmap string purchased_item :=
  {[ "SCREW"%string := {| item_code := "SCREW";
                          item_name := None;
                          uom := Some "pc"%string;
                          unit_cost := Some 0.1%Q;
                          waste_pct := Some 0.02%Q;
                          moq_qty := Some 500%Q |} ]}.

Definition demo_packaging : gmap string packaging_rule :=
  {[ "CARTON"%string := {| rule_type := per_carton;
                           rule_item_code := "CARTON";
                           rule_unit_cost := Some 3%Q;
                           rule_qty_per_unit := None;
                           rule_qty_per_carton := None;
                           rule_units_per_carton := None |} ]}.

Definition part_line_1 : bom_line :=
  {| line_type := Some "part"%string; code := Some "PART-1"%string;
     qty_per_unit := Some 1%Q; optional := None |}.

Definition screw_line : bom_line :=
  {| line_type := Some "purchased"%string; code := Some "SCREW"%string;
     qty_per_unit := Some 4%Q; optional := None |}.

Definition missing_line : bom_line :=
  {| line_type := Some "purchased"%string; code := Some "BOLT-M4"%string;
     qty_per_unit := Some 2%Q; optional := None |}.

Definition carton_line : bom_line :=
  {| line_type := Some "packaging"%string; code := Some "CARTON"%string;
     qty_per_unit := None; optional := None |}.

Definition demo_product : product :=
  {| sku := "BRACKET";
     name := None;
     units_per_carton := Some 20;
     bom_lines := Some [part_line_1; screw_line; missing_line; carton_line] |}.

Definition no_override : nat -> option (sheet_spec * Z) := fun _ => None.

Definition shuffled_tiers : list tier :=
  [ {| min_qty := 50; max_qty := None; multiplier := 0.9%Q; label := None |};
    {| min_qty := 1; max_qty := Some 49; multiplier := 1%Q; label := None |} ].

Definition huge_part : part :=
  {| part_code := "PANEL";
     part_name := None;
     material_code := Some "SS304"%string;
     thickness_mm := Some 1.5%Q;
     blank_length_mm := Some 2500%Q;
     blank_width_mm := Some 2450%Q;
     allow_rotate := None;
     edge_margin_mm := None;
     kerf_mm := None;
     nest_efficiency := None;
     process_steps := None |}.

Definition memo_line : bom_line :=
  {| line_type := Some "note"%string; code := Some "SEE DRAWING"%string;
     qty_per_unit := None; optional := None |}.

Definition bar_part : part :=
  {| part_code := "ROD-8";
     part_name := None;
     material_code := Some "AL6061"%string;
     thickness_mm := None;
     blank_length_mm := None;
     blank_width_mm := None;
     allow_rotate := None;
     edge_margin_mm := None;
     kerf_mm := None;
     nest_efficiency := None;
     process_steps := Some [cut_step] |}.

Definition bar_line : bom_line :=
  {| line_type := Some "part"%string; code := Some "ROD-8"%string;
     qty_per_unit := Some 2%Q; optional := None |}.

Definition bare_materials : gmap string material :=
  {[ "SS304"%string := {| pricing_mode := Some "by_sheet"%string;
                          sheet_options := None |} ]}.

Definition screw_item : purchased_item :=
  {| item_code := "SCREW";
     item_name := None;
     uom := Some "pc"%string;
     unit_cost := Some 0.1%Q;
     waste_pct := Some 0.02%Q;
     moq_qty := Some 500%Q |}.

Definition carton_rule : packaging_rule :=
  {| rule_type := per_carton;
     rule_item_code := "CARTON";
     rule_unit_cost := Some 3%Q;
     rule_qty_per_unit := None;
     rule_qty_per_carton := None;
     rule_units_per_carton := None |}.

Definition old_screw_item : purchased_item :=
  {| item_code := "SCREW";
     item_name := Some "old price"%string;
     uom := Some "pc"%string;
     unit_cost := Some 0.2%Q;
     waste_pct := None;
     moq_qty := None |}.

Definition demo_rollup : rollup :=
  quote_rollup 1000 200 0 50 120 0.05 0.13 0.18 "gross_margin" demo_tiers 100.

Definition cart_of_three : list quote_line :=
  add_quote_line
    (add_quote_line
       (add_quote_line [] demo_product 100 initial_state demo_rollup 0.18 0.13 0.05 0.03)
       demo_product 50 initial_state demo_rollup 0.18 0.13 0.05 0.03)
    demo_product 10 initial_state demo_rollup 0.18 0.13 0.05 0.03.

Definition demo_template : AppBackup.template :=
  {| AppBackup.tpl_material_code := "AL6061";
     AppBackup.weight_kg_per_unit := Some 0.4%Q;
     AppBackup.default_processes :=
       Some [ {| AppBackup.tp_process_code := "CUT"; AppBackup.tp_minutes := Some 2%Q |};
              {| AppBackup.tp_process_code := "P404"; AppBackup.tp_minutes := Some 5%Q |} ] |}.

Definition demo_weight_materials : gmap string AppBackup.weight_material :=
  {[ "AL6061"%string := {| AppBackup.price_per_kg := Some 30%Q |} ]}.


(** * Properties *)

(** ** The sort *)

Section SortedFacts.
Context {A : Type} (leb : A -> A -> bool).

Lemma insert_sorted_perm (x : A) (l : list A) :
  insert_sorted leb x l ≡ₚ x :: l.
Proof.
  induction l as [|y l IH]; simpl; [done|].
  destruct (leb x y); [done|].
  rewrite IH. apply Permutation_swap.
Qed.

Lemma sorted_perm (l : list A) : sorted leb l ≡ₚ l.
Proof.
  induction l as [|x l IH]; simpl; [done|].
  by rewrite insert_sorted_perm, IH.
Qed.

Lemma sorted_In (l : list A) (x : A) : In x (sorted leb l) <-> In x l.
Proof.
  split; apply Permutation_in; [|symmetry]; apply sorted_perm.
Qed.

Lemma sorted_nil_inv (l : list A) : sorted leb l = [] -> l = [].
Proof.
  intros H. apply Permutation_nil. rewrite <- H. apply sorted_perm.
Qed.

Hypothesis leb_total : forall x y, leb x y = true \/ leb y x = true.
Hypothesis leb_trans : forall x y z, leb x y = true -> leb y z = true -> leb x z = true.

Lemma insert_sorted_StronglySorted (x : A) (l : list A) :
  StronglySorted (fun a b => leb a b = true) l ->
  StronglySorted (fun a b => leb a b = true) (insert_sorted leb x l).
Proof.
  induction 1 as [|y l Hl IH Hy]; simpl.
  - repeat constructor.
  - destruct (leb x y) eqn:Hxy.
    + constructor; [by constructor|].
      constructor; [exact Hxy|].
      eapply Forall_impl; [exact Hy|]. intros z Hz. by eapply leb_trans.
    + constructor; [exact IH|].
      rewrite (insert_sorted_perm x l). constructor; [|exact Hy].
      destruct (leb_total x y) as [H'|H']; [congruence|exact H'].
Qed.

Lemma sorted_StronglySorted (l : list A) :
  StronglySorted (fun a b => leb a b = true) (sorted leb l).
Proof.
  induction l as [|x l IH]; simpl; [constructor|].
  by apply insert_sorted_StronglySorted.
Qed.

(** Stability: the items of one key class keep their relative order. *)
Lemma insert_sorted_stable (P : A -> bool) (x : A) (l : list A) :
  (forall y, P x = true -> P y = true -> leb x y = true) ->
  List.filter P (insert_sorted leb x l) = List.filter P (x :: l).
Proof.
  intros HP. induction l as [|y l IH]; [done|].
  cbn [insert_sorted]. destruct (leb x y) eqn:Hxy; [done|].
  cbn [List.filter] in *. rewrite IH.
  destruct (P x) eqn:Hx, (P y) eqn:Hy; try done.
  rewrite HP in Hxy; done.
Qed.

Lemma sorted_stable (P : A -> bool) (l : list A) :
  (forall x y, P x = true -> P y = true -> leb x y = true) ->
  List.filter P (sorted leb l) = List.filter P l.
Proof.
  intros HP. induction l as [|x l IH]; [done|].
  cbn [sorted]. rewrite insert_sorted_stable by (intros; by apply HP).
  cbn [List.filter]. by rewrite IH.
Qed.
End SortedFacts.

(** ** Quantity tiers: [find_multiplier] *)

Lemma tier_matches_in_range (qty : Z) (t : tier) :
  tier_matches qty t = true <-> in_range qty t.
Proof.
  unfold tier_matches, in_range. rewrite andb_true_iff, Z.geb_le.
  destruct (max_qty t); [rewrite Z.leb_le|]; intuition.
Qed.

Lemma by_min_qty_total (a b : tier) :
  by_min_qty a b = true \/ by_min_qty b a = true.
Proof. unfold by_min_qty. rewrite !Z.leb_le. lia. Qed.

Lemma by_min_qty_trans (a b c : tier) :
  by_min_qty a b = true -> by_min_qty b c = true -> by_min_qty a c = true.
Proof. unfold by_min_qty. rewrite !Z.leb_le. lia. Qed.

Lemma StronglySorted_weaken {A : Type} (R1 R2 : relation A) (l : list A) :
  (forall a b, R1 a b -> R2 a b) -> StronglySorted R1 l -> StronglySorted R2 l.
Proof.
  intros HR. induction 1 as [|x l Hl IH Hx]; constructor; [done|].
  eapply Forall_impl; [exact Hx|]. intros y. apply HR.
Qed.

Lemma ranked_tiers_sorted (tiers : list tier) :
  StronglySorted min_qty_le (sorted by_min_qty tiers).
Proof.
  eapply StronglySorted_weaken;
    [|apply sorted_StronglySorted; [apply by_min_qty_total|apply by_min_qty_trans]].
  intros a b. unfold by_min_qty, min_qty_le. apply Z.leb_le.
Qed.

(** The scan of the loop keeps the last matching item. *)
Lemma scan_keeps_last {A : Type} (m : A -> bool) (l : list A) (c : option A) :
  fold_left (fun candidate t => if m t then Some t else candidate) l c =
  match last (List.filter m l) with
  | Some t => Some t
  | None => c
  end.
Proof.
  revert c. induction l as [|x l IH]; intros c; [done|].
  cbn [fold_left List.filter]. rewrite IH.
  destruct (m x); [|done].
  rewrite last_cons. by destruct (last (List.filter m l)).
Qed.

(** In a sorted list the last of the selected items dominates all of them. *)
Lemma last_filter_dominates {A : Type} (R : relation A) `{!Reflexive R}
    (m : A -> bool) (l : list A) (t : A) :
  StronglySorted R l ->
  last (List.filter m l) = Some t ->
  forall x, In x l -> m x = true -> R x t.
Proof.
  intros Hs Hlast x Hx Hm.
  assert (Hin : In x (List.filter m l)) by (apply filter_In; done).
  apply last_Some in Hlast as [pre Hpre].
  rewrite Hpre in Hin. apply in_app_or in Hin as [Hin|[<-|[]]]; [|reflexivity].
  assert (Hsf : StronglySorted R (List.filter m l)).
  { clear -Hs. induction Hs as [|y l Hl IH Hy]; cbn [List.filter]; [constructor|].
    destruct (m y); [|done]. constructor; [done|].
    apply Forall_forall. intros z Hz%list_elem_of_In%filter_In.
    rewrite Forall_forall in Hy. apply Hy, list_elem_of_In, Hz. }
  rewrite Hpre in Hsf.
  eapply StronglySorted_app_1_elem_of; [exact Hsf| |];
    [by apply list_elem_of_In|by apply list_elem_of_singleton].
Qed.

Lemma head_sorted_least {A : Type} (R : relation A) `{!Reflexive R}
    (l : list A) (t : A) :
  StronglySorted R l -> head l = Some t -> forall x, In x l -> R t x.
Proof.
  intros Hs Hh x Hx. destruct l as [|y l]; [done|].
  injection Hh as ->. apply StronglySorted_cons in Hs as [Hall _].
  destruct Hx as [<-|Hx]; [reflexivity|].
  rewrite Forall_forall in Hall. by apply Hall, list_elem_of_In.
Qed.

#[local] Instance min_qty_le_refl : Reflexive min_qty_le.
Proof. intros t. unfold min_qty_le. lia. Qed.

(** C3.  [find_multiplier] ranks the tiers by ascending [min_qty] (a sorted
    permutation of the tier list) and returns the multiplier and the tier
    of the last ranked tier whose range contains [qty], so no tier
    containing [qty] has a larger [min_qty]; when the list is not empty and
    no tier contains [qty] it returns the first ranked tier, whose
    [min_qty] is the smallest; for the empty list it returns multiplier 1
    and no tier. *)
Theorem find_multiplier_spec (tiers : list tier) (qty : Z) :
  (sorted by_min_qty tiers ≡ₚ tiers /\
   StronglySorted min_qty_le (sorted by_min_qty tiers)) /\
  ((exists t, In t tiers /\ in_range qty t) ->
   exists t,
     last (List.filter (tier_matches qty) (sorted by_min_qty tiers)) = Some t /\
     In t tiers /\ in_range qty t /\
     (forall t', In t' tiers -> in_range qty t' -> min_qty t' <= min_qty t) /\
     find_multiplier tiers qty = (multiplier t, Some t)) /\
  (tiers <> [] -> (forall t, In t tiers -> ~ in_range qty t) ->
   exists t,
     head (sorted by_min_qty tiers) = Some t /\
     In t tiers /\
     (forall t', In t' tiers -> min_qty t <= min_qty t') /\
     find_multiplier tiers qty = (multiplier t, Some t)) /\
  (tiers = [] -> find_multiplier tiers qty = (1%Q, None)).
Proof.
  pose proof (ranked_tiers_sorted tiers) as Hs.
  split; [split; [apply sorted_perm|exact Hs]|].
  unfold find_multiplier. rewrite scan_keeps_last.
  split; [|split].
  - intros (t0 & Hin0 & Hr0).
    destruct (last (List.filter (tier_matches qty) (sorted by_min_qty tiers)))
      as [t|] eqn:Hlast.
    + exists t. split; [done|].
      pose proof (last_Some_elem_of _ _ Hlast) as Ht%list_elem_of_In%filter_In.
      destruct Ht as [Ht Hm]. apply sorted_In in Ht.
      apply tier_matches_in_range in Hm.
      split; [done|]. split; [done|]. split; [|by destruct tiers].
      intros t' Hin' Hr'.
      apply (last_filter_dominates min_qty_le (tier_matches qty) _ t Hs Hlast).
      * by apply sorted_In.
      * by apply tier_matches_in_range.
    + exfalso. apply last_None in Hlast.
      assert (Hin : In t0 (List.filter (tier_matches qty) (sorted by_min_qty tiers))).
      { apply filter_In. split; [by apply sorted_In|by apply tier_matches_in_range]. }
      rewrite Hlast in Hin. destruct Hin.
  - intros Hne Hnone.
    assert (Hlast : last (List.filter (tier_matches qty) (sorted by_min_qty tiers)) = None).
    { apply last_None.
      destruct (List.filter (tier_matches qty) (sorted by_min_qty tiers))
        as [|t l] eqn:Hf; [done|].
      assert (Hin : In t (List.filter (tier_matches qty) (sorted by_min_qty tiers)))
        by (rewrite Hf; by left).
      apply filter_In in Hin as [Hin Hm]. exfalso.
      apply sorted_In in Hin. apply tier_matches_in_range in Hm.
      by apply (Hnone t). }
    rewrite Hlast.
    destruct (head (sorted by_min_qty tiers)) as [t|] eqn:Hhead.
    + exists t. split; [done|].
      pose proof (head_Some_elem_of _ _ Hhead) as Ht%list_elem_of_In%sorted_In.
      split; [done|]. split; [|by destruct tiers].
      intros t' Hin'.
      apply (head_sorted_least min_qty_le _ t Hs Hhead). by apply sorted_In.
    + by apply head_None, sorted_nil_inv in Hhead.
  - intros ->. reflexivity.
Qed.

(** At 50 units the open-ended tier of the two demo tiers is returned. *)
Lemma find_multiplier_spec_witness :
  exists t,
    last (List.filter (tier_matches 50) (sorted by_min_qty demo_tiers)) = Some t /\
    In t demo_tiers /\ in_range 50 t /\
    (forall t', In t' demo_tiers -> in_range 50 t' -> min_qty t' <= min_qty t) /\
    find_multiplier demo_tiers 50 = (multiplier t, Some t).
Proof.
  apply (find_multiplier_spec demo_tiers 50).
  eexists. split; [right; left; reflexivity|].
  split; simpl; [lia|exact I].
Defined.

Example find_multiplier_at_50 :
  fst (find_multiplier demo_tiers 50) = 0.9%Q.
Proof. reflexivity. Qed.

Example find_multiplier_at_49 :
  fst (find_multiplier demo_tiers 49) = 1%Q.
Proof. reflexivity. Qed.

Example find_multiplier_at_0 :
  find_multiplier demo_tiers 0 = (1%Q, head demo_tiers).
Proof. reflexivity. Qed.

(** C9.  The two copies of [find_multiplier] return the same multiplier and
    the same matched tier on every tier list and quantity. *)
Theorem find_multiplier_backup_agrees (tiers : list tier) (qty : Z) :
  AppBackup.find_multiplier tiers qty = App.find_multiplier tiers qty.
Proof. reflexivity. Qed.

(** ** Process costs: [compute_process_costs] *)

Lemma Qsum_app (l1 l2 : list Q) : (Qsum (l1 ++ l2) == Qsum l1 + Qsum l2)%Q.
Proof.
  induction l1 as [|x l1 IH]; cbn [Qsum app]; [ring|]. rewrite IH. ring.
Qed.

(** The loop from any pair of accumulators: the rows of the enabled steps are
    appended in step order and their totals added. *)
Lemma process_loop_from (pm : gmap string process_def) (qty : Z) (pc : string)
    (steps : list process_step) (total : Q) (breakdown : list process_row) :
  let rows := map (process_row_of pm qty pc) (List.filter is_enabled steps) in
  snd (fold_left (process_step_body pm qty pc) steps (total, breakdown))
    = breakdown ++ rows /\
  (fst (fold_left (process_step_body pm qty pc) steps (total, breakdown))
    == total + Qsum (map row_total_cost rows))%Q.
Proof.
  revert total breakdown. induction steps as [|st steps IH]; intros total breakdown.
  - cbn. split; [by rewrite app_nil_r|ring].
  - cbn [fold_left List.filter]. unfold process_step_body at 2 4.
    destruct (is_enabled st); cbn [negb].
    + destruct (IH (total + row_total_cost (process_row_of pm qty pc st))%Q
                   (breakdown ++ [process_row_of pm qty pc st])) as [Hr Ht].
      split.
      * rewrite Hr. by rewrite <- app_assoc.
      * rewrite Ht. cbn [map Qsum]. ring.
    + apply IH.
Qed.

Lemma unknown_code_row (pm : gmap string process_def) (qty : Z) (pc : string)
    (st : process_step) :
  unknown_code pm st ->
  row_rate_per_min (process_row_of pm qty pc st) = 0%Q /\
  row_setup_cost (process_row_of pm qty pc st) = 0%Q /\
  row_name (process_row_of pm qty pc st) = process_code st /\
  (row_total_cost (process_row_of pm qty pc st) == 0)%Q.
Proof.
  intros Hu. unfold process_row_of, lookup_process. rewrite Hu. cbn.
  repeat split; try reflexivity. ring.
Qed.

(** C1, as stated, fails: a step whose code is not in the catalogue is not
    skipped, it adds a breakdown row of its own. *)
Lemma unknown_code_step_has_row :
  unknown_code demo_processes unlisted_step /\
  snd (compute_process_costs [cut_step; unlisted_step] demo_processes 10 "PART-1")
    = [ process_row_of demo_processes 10 "PART-1" cut_step;
        process_row_of demo_processes 10 "PART-1" unlisted_step ] /\
  row_process_code (process_row_of demo_processes 10 "PART-1" unlisted_step)
    = Some "P404"%string /\
  snd (compute_process_costs [unlisted_step] demo_processes 10 "PART-1") <> [].
Proof. repeat split; try reflexivity. discriminate. Qed.

(** The template-driven variant, by contrast, drops a process whose code
    is not in the catalogue: no row, nothing added. *)
Lemma backup_skips_unknown_code (processes_map : gmap string process_def) (qty : Z)
    (user_inputs : gmap string AppBackup.process_input) (acc : Q * list AppBackup.template_row)
    (proc : AppBackup.template_process) :
  processes_map !! AppBackup.tp_process_code proc = None ->
  AppBackup.process_body processes_map qty user_inputs acc proc = acc.
Proof.
  intros H. unfold AppBackup.process_body. destruct acc as [total breakdown].
  by rewrite H.
Qed.

(** C1, amended.  [compute_process_costs] skips the disabled steps only:
    the breakdown holds exactly one row for every enabled step, in step
    order, and the total is the sum of the row totals.  A step whose code is
    absent from the catalogue is priced against the empty entry: its row has
    rate 0, setup cost 0 and its code as name, it costs 0 and the total is
    the same as without the step. *)
Theorem compute_process_costs_rows (steps : list process_step)
    (pm : gmap string process_def) (qty : Z) (pc : string) :
  snd (compute_process_costs steps pm qty pc)
    = map (process_row_of pm qty pc) (List.filter is_enabled steps) /\
  (fst (compute_process_costs steps pm qty pc)
    == Qsum (map row_total_cost (snd (compute_process_costs steps pm qty pc))))%Q /\
  (forall st, unknown_code pm st ->
     row_rate_per_min (process_row_of pm qty pc st) = 0%Q /\
     row_setup_cost (process_row_of pm qty pc st) = 0%Q /\
     row_name (process_row_of pm qty pc st) = process_code st /\
     (row_total_cost (process_row_of pm qty pc st) == 0)%Q) /\
  (forall l1 st l2, steps = l1 ++ st :: l2 -> unknown_code pm st ->
     (fst (compute_process_costs steps pm qty pc)
       == fst (compute_process_costs (l1 ++ l2) pm qty pc))%Q).
Proof.
  unfold compute_process_costs.
  destruct (process_loop_from pm qty pc steps 0%Q []) as [Hrows Htotal].
  split; [exact Hrows|]. split; [rewrite Htotal, Hrows; cbn [app]; ring|].
  split; [intros st; apply unknown_code_row|].
  intros l1 st l2 -> Hu.
  destruct (process_loop_from pm qty pc (l1 ++ st :: l2) 0%Q []) as [_ ->].
  destruct (process_loop_from pm qty pc (l1 ++ l2) 0%Q []) as [_ ->].
  rewrite !List.filter_app, !List.map_app, !Qsum_app. cbn [List.filter].
  destruct (is_enabled st); [|reflexivity].
  cbn [map Qsum].
  destruct (unknown_code_row pm qty pc st Hu) as (_ & _ & _ & ->). ring.
Qed.

Lemma compute_process_costs_rows_witness :
  (fst (compute_process_costs [cut_step; unlisted_step] demo_processes 10 "PART-1")
    == fst (compute_process_costs [cut_step] demo_processes 10 "PART-1"))%Q.
Proof.
  apply (proj2 (proj2 (proj2
           (compute_process_costs_rows [cut_step; unlisted_step] demo_processes 10 "PART-1")))
         [cut_step] unlisted_step []); reflexivity.
Defined.

(** ** Process costs at quantity zero *)

(** C10.  At quantity 0 the total of [compute_process_costs] is the sum of
    the catalogue setup costs of the enabled steps whose code is in the
    catalogue; it is not zero in general. *)
Theorem zero_qty_process_cost (steps : list process_step)
    (pm : gmap string process_def) (pc : string) :
  (fst (compute_process_costs steps pm 0 pc)
    == Qsum (map (catalog_setup_cost pm)
                 (List.filter (fun st => is_enabled st && in_catalog pm st) steps)))%Q /\
  ~ (fst (compute_process_costs [cut_step] demo_processes 0 pc) == 0)%Q.
Proof.
  split; [|vm_compute; discriminate].
  unfold compute_process_costs.
  destruct (process_loop_from pm 0 pc steps 0%Q []) as [_ ->].
  rewrite Qplus_0_l.
  induction steps as [|st steps IH]; [reflexivity|].
  cbn [List.filter]. destruct (is_enabled st); cbn [andb]; [|exact IH].
  cbn [map Qsum]. rewrite IH.
  assert (Hrow : (row_total_cost (process_row_of pm 0 pc st) == catalog_setup_cost pm st)%Q).
  { unfold process_row_of, catalog_setup_cost, float. cbn. ring. }
  rewrite Hrow. unfold in_catalog.
  destruct (process_code st ≫= (pm !!.)) eqn:Hc; cbn [map Qsum]; [reflexivity|].
  unfold catalog_setup_cost, lookup_process. rewrite Hc. cbn. ring.
Qed.

Example zero_qty_setup_charged :
  (fst (compute_process_costs [cut_step; unlisted_step] demo_processes 0 "PART-1") == 40)%Q.
Proof. vm_compute. reflexivity. Qed.

(** ** Sheet layout: [compute_sheet_layout] *)

Lemma Qltb_lt (x y : Q) : Qltb x y = true <-> (x < y)%Q.
Proof.
  unfold Qltb. rewrite negb_true_iff, <- not_true_iff_false, Qle_bool_iff.
  split; [apply Qnot_le_lt|apply Qlt_not_le].
Qed.

Lemma Qltb_ge (x y : Q) : Qltb x y = false <-> (y <= x)%Q.
Proof.
  unfold Qltb. rewrite negb_false_iff. apply Qle_bool_iff.
Qed.

Lemma Qgtb_gt (x y : Q) : Qgtb x y = true <-> (y < x)%Q.
Proof. apply Qltb_lt. Qed.

Lemma Qgtb_le (x y : Q) : Qgtb x y = false <-> (x <= y)%Q.
Proof. apply Qltb_ge. Qed.



Lemma pieces_calc_ge_1 (opt : sheet_option) (p : part) (qty : Z) (ov : option Z) :
  1 <= pieces_per_sheet_calc (compute_sheet_layout opt p qty ov).
Proof.
  cbn. destruct (_ >? 0); lia.
Qed.

Lemma pieces_per_sheet_ge_1 (opt : sheet_option) (p : part) (qty : Z) (ov : option Z) :
  1 <= pieces_per_sheet (compute_sheet_layout opt p qty ov).
Proof.
  pose proof (pieces_calc_ge_1 opt p qty ov) as Hc. cbn in *.
  destruct ov as [o|]; [|exact Hc].
  destruct (o =? 0) eqn:H0; cbn [negb andb]; [exact Hc|].
  destruct (o >? 0) eqn:Hpos; [|exact Hc]. lia.
Qed.



Example demo_layout :
  compute_sheet_layout demo_sheet demo_part 100 None
  = {| count_a := 40; count_b := 33; raw_count := 40;
       pieces_per_sheet_calc := 34; pieces_per_sheet := 34; sheets_needed := 3 |}.
Proof. reflexivity. Qed.

(** C8.  The calculated pieces per sheet does not decrease when the nesting
    efficiency grows within (0, 1] and nothing else changes. *)
Theorem pieces_calc_monotone (opt : sheet_option) (p : part) (qty : Z)
    (ov : option Z) (e1 e2 : Q) :
  (0 < e1)%Q -> (e1 <= e2)%Q -> (e2 <= 1)%Q ->
  pieces_per_sheet_calc (compute_sheet_layout opt (with_nest_efficiency e1 p) qty ov)
  <= pieces_per_sheet_calc (compute_sheet_layout opt (with_nest_efficiency e2 p) qty ov).
Proof.
  intros _ Hle _. unfold compute_sheet_layout.
  cbn [pieces_per_sheet_calc nest_efficiency allow_rotate with_nest_efficiency
       from_option id].
  change (usable_L opt (with_nest_efficiency e1 p)) with (usable_L opt p).
  change (usable_L opt (with_nest_efficiency e2 p)) with (usable_L opt p).
  change (usable_W opt (with_nest_efficiency e1 p)) with (usable_W opt p).
  change (usable_W opt (with_nest_efficiency e2 p)) with (usable_W opt p).
  change (pitch_L (with_nest_efficiency e1 p)) with (pitch_L p).
  change (pitch_L (with_nest_efficiency e2 p)) with (pitch_L p).
  change (pitch_W (with_nest_efficiency e1 p)) with (pitch_W p).
  change (pitch_W (with_nest_efficiency e2 p)) with (pitch_W p).
  set (raw := Z.max _ _).
  destruct (raw >? 0) eqn:Hraw; [|lia].
  apply Z.gtb_gt in Hraw.
  apply Z.max_le_compat_l, Qfloor_resp_le.
  apply Qmult_le_l; [|exact Hle].
  unfold float. change 0%Q with (inject_Z 0). rewrite <- Zlt_Qlt. lia.
Qed.

Lemma pieces_calc_monotone_witness :
  pieces_per_sheet_calc
    (compute_sheet_layout demo_sheet (with_nest_efficiency 0.5%Q demo_part) 100 None)
  <= pieces_per_sheet_calc
       (compute_sheet_layout demo_sheet (with_nest_efficiency 0.85%Q demo_part) 100 None).
Proof.
  apply (pieces_calc_monotone demo_sheet demo_part 100 None 0.5%Q 0.85%Q);
    vm_compute; congruence.
Defined.

(** ** Sheet selection: [evaluate_sheet_options] *)

Lemma py_min_from (l : list Q) (d : Q) :
  In (py_min d l) (d :: l) /\ (forall x, In x (d :: l) -> (py_min d l <= x)%Q).
Proof.
  unfold py_min. revert d. induction l as [|y l IH]; intros d; cbn [fold_left].
  - split; [by left|]. intros x [<-|[]]. apply Qle_refl.
  - destruct (Qltb y d) eqn:Hyd.
    + apply Qltb_lt in Hyd. destruct (IH y) as [Hin Hle]. split.
      * right. exact Hin.
      * intros x [<-|Hx]; [|by apply Hle].
        apply Qle_trans with y; [apply Hle; by left|by apply Qlt_le_weak].
    + apply Qltb_ge in Hyd. destruct (IH d) as [Hin Hle]. split.
      * destruct Hin as [Hin|Hin]; [by left|by right; right].
      * intros x [<-|[<-|Hx]].
        -- apply Hle. by left.
        -- apply Qle_trans with d; [apply Hle; by left|exact Hyd].
        -- apply Hle. by right.
Qed.

#[local] Instance material_cost_le_refl : Reflexive material_cost_le.
Proof. intros r. apply Qle_refl. Qed.






(** The cheaper thick sheet is not a candidate: only the two sheets of the
    part's own thickness are ranked, the 320 one first (3 sheets against 5
    sheets at 200). *)
Example demo_selection :
  map row_sheet_option (fst (evaluate_sheet_options demo_sheets demo_part 100))
    = [demo_sheet; small_sheet] /\
  map material_cost (fst (evaluate_sheet_options demo_sheets demo_part 100))
    = [960%Q; 1000%Q].
Proof. vm_compute. split; reflexivity. Qed.

(** ** Rollup: [quote_rollup] and [margin_price] *)

Lemma margin_price_gross_margin (cost m : Q) :
  ((m < 1)%Q -> margin_price "gross_margin" cost m = (cost / (1 - m))%Q) /\
  ((1 <= m)%Q -> margin_price "gross_margin" cost m = cost).
Proof.
  unfold margin_price. cbn [String.eqb Ascii.eqb Bool.eqb].
  split; intros H.
  - by rewrite (proj2 (Qltb_lt m 1) H).
  - by rewrite (proj2 (Qltb_ge m 1) H).
Qed.

Lemma margin_price_markup (mode : string) (cost m : Q) :
  mode <> "gross_margin"%string -> margin_price mode cost m = (cost * (1 + m))%Q.
Proof.
  intros H. unfold margin_price.
  by rewrite (proj2 (String.eqb_neq mode "gross_margin") H).
Qed.

(** C2.  The rollup: subtotal, overhead, pre-tax amount, tax and total cost
    are chained as written; the final price is the total cost divided by
    [1 - margin_pct] in gross-margin mode (the total cost itself when
    [margin_pct >= 1]) and multiplied by [1 + margin_pct] in markup mode
    (every mode other than gross margin), then multiplied by the multiplier
    of [find_multiplier]; the unit price is the final price divided by the
    quantity, and 0 at quantity 0. *)
Theorem quote_rollup_spec (mat_total proc_total purch_total pack_total : Q)
    (shipping overhead_pct tax_pct margin_pct : Q) (mode : string)
    (tiers : list tier) (qty : Z) :
  let r := quote_rollup mat_total proc_total purch_total pack_total
                        shipping overhead_pct tax_pct margin_pct mode tiers qty in
  subtotal r = (mat_total + proc_total + purch_total + pack_total + shipping)%Q /\
  overhead r = (subtotal r * overhead_pct)%Q /\
  pre_tax r = (subtotal r + overhead r)%Q /\
  tax r = (pre_tax r * tax_pct)%Q /\
  total_cost r = (pre_tax r + tax r)%Q /\
  (tier_multiplier r, matched_tier r) = find_multiplier tiers qty /\
  (mode = "gross_margin"%string -> (margin_pct < 1)%Q ->
   final_price_total r = (total_cost r / (1 - margin_pct) * tier_multiplier r)%Q) /\
  (mode = "gross_margin"%string -> (1 <= margin_pct)%Q ->
   final_price_total r = (total_cost r * tier_multiplier r)%Q) /\
  (mode <> "gross_margin"%string ->
   final_price_total r = (total_cost r * (1 + margin_pct) * tier_multiplier r)%Q) /\
  (qty <> 0 -> unit_price r = (final_price_total r / float qty)%Q) /\
  (qty = 0 -> unit_price r = 0%Q).
Proof.
  intros r. subst r. unfold quote_rollup.
  destruct (find_multiplier tiers qty) as [mult matched].
  cbn [subtotal overhead pre_tax tax total_cost tier_multiplier matched_tier
       final_price_total unit_price].
  repeat (split; [reflexivity|]).
  split; [intros -> H; by rewrite (proj1 (margin_price_gross_margin _ _) H)|].
  split; [intros -> H; by rewrite (proj2 (margin_price_gross_margin _ _) H)|].
  split; [intros H; by rewrite (margin_price_markup _ _ _ H)|].
  split.
  - intros H. by rewrite (proj2 (Z.eqb_neq qty 0) H).
  - by intros ->.
Qed.

Lemma quote_rollup_spec_witness :
  final_price_total
    (quote_rollup 1000 200 0 50 120 0.05 0.13 0.18 "markup" demo_tiers 100)
  = (total_cost (quote_rollup 1000 200 0 50 120 0.05 0.13 0.18 "markup" demo_tiers 100)
     * (1 + 0.18)
     * tier_multiplier
         (quote_rollup 1000 200 0 50 120 0.05 0.13 0.18 "markup" demo_tiers 100))%Q.
Proof.
  apply (quote_rollup_spec 1000 200 0 50 120 0.05 0.13 0.18 "markup" demo_tiers 100).
  discriminate.
Defined.

(** The worked figures of the rollup: 1000 of material, 200 of process, 50 of
    packaging and 120 of shipping at 5% overhead, 13% tax and 18% gross
    margin, 100 units, no tiers. *)
Example rollup_worked_figures :
  let r := quote_rollup 1000 200 0 50 120 0.05 0.13 0.18 "gross_margin" [] 100 in
  (subtotal r == 1370)%Q /\ (overhead r == 68.5)%Q /\ (pre_tax r == 1438.5)%Q /\
  (tax r == 187.005)%Q /\ (total_cost r == 1625.505)%Q /\
  (final_price_total r == 1625.505 / 0.82)%Q /\
  (unit_price r == 1625.505 / 82)%Q.
Proof. vm_compute. repeat split. Qed.

(** C6, as stated, fails: at a total cost of 0 the two modes give the same
    price, whatever the margin. *)
Lemma zero_cost_same_price :
  (0 < 0.18)%Q /\
  (margin_price "markup" 0 0.18 == margin_price "gross_margin" 0 0.18)%Q.
Proof. split; reflexivity. Qed.

(** C6, amended.  For a total cost other than 0 and a margin above 0 the
    markup price differs from the gross-margin price (the latter being the
    total cost itself from a margin of 1 on); at a margin of 0.18 the markup
    price is [cost * 1.18] and the gross-margin price [cost / 0.82]. *)
Theorem markup_differs_from_gross_margin (cost m : Q) :
  (~ (cost == 0)%Q -> (0 < m)%Q ->
   ~ (margin_price "markup" cost m == margin_price "gross_margin" cost m)%Q) /\
  (margin_price "markup" cost 0.18 == cost * 1.18)%Q /\
  (margin_price "gross_margin" cost 0.18 == cost / 0.82)%Q.
Proof.
  split; [|split].
  - intros Hcost Hm Heq.
    rewrite margin_price_markup in Heq by discriminate.
    destruct (Qlt_le_dec m 1) as [Hlt|Hge].
    + rewrite (proj1 (margin_price_gross_margin cost m) Hlt) in Heq.
      assert (H1 : (cost * (1 + m) * (1 - m) == cost)%Q).
      { rewrite Heq. field. lra. }
      assert (H2 : (cost * (m * m) == 0)%Q) by lra.
      apply Qmult_integral in H2 as [H2|H2]; [done|].
      apply Qmult_integral in H2 as [H2|H2]; lra.
    + rewrite (proj2 (margin_price_gross_margin cost m) Hge) in Heq.
      assert (H2 : (cost * m == 0)%Q) by lra.
      apply Qmult_integral in H2 as [H2|H2]; [done|lra].
  - rewrite margin_price_markup by discriminate. ring.
  - rewrite (proj1 (margin_price_gross_margin cost 0.18)) by reflexivity.
    field.
Qed.

Lemma markup_differs_from_gross_margin_witness :
  ~ (margin_price "markup" 1625.505 0.18 == margin_price "gross_margin" 1625.505 0.18)%Q.
Proof.
  apply (proj1 (markup_differs_from_gross_margin 1625.505 0.18));
    [discriminate|reflexivity].
Defined.

(** ** The BOM loop *)

Lemma combine_seq_app (l1 l2 : list bom_line) (a : nat) :
  combine (seq a (length (l1 ++ l2))) (l1 ++ l2)
  = combine (seq a (length l1)) l1 ++ combine (seq (a + length l1) (length l2)) l2.
Proof.
  revert a. induction l1 as [|x l1 IH]; intros a; cbn [app length seq combine].
  - by rewrite Nat.add_0_r.
  - rewrite IH. by rewrite Nat.add_succ_r.
Qed.

Lemma combine_seq_Forall2 (R : nat -> nat -> Prop) (l : list bom_line) (a b : nat) :
  (forall k, (k < length l)%nat -> R (a + k)%nat (b + k)%nat) ->
  Forall2 (fun x y => snd x = snd y /\ R (fst x) (fst y))
          (combine (seq a (length l)) l) (combine (seq b (length l)) l).
Proof.
  revert a b. induction l as [|x l IH]; intros a b H; cbn [length seq combine];
    [constructor|].
  constructor.
  - split; [done|]. cbn. specialize (H 0%nat). rewrite !Nat.add_0_r in H.
    apply H. cbn. lia.
  - apply IH. intros k Hk. specialize (H (S k)).
    rewrite !Nat.add_succ_r in H. apply H. cbn. lia.
Qed.

Lemma enumerate_with_line (l1 l2 : list bom_line) (line : bom_line) :
  enumerate (l1 ++ line :: l2)
  = enumerate l1 ++ (length l1, line) :: combine (seq (S (length l1)) (length l2)) l2.
Proof.
  unfold enumerate. rewrite combine_seq_app. by cbn.
Qed.

Lemma enumerate_rekey (widgets : nat -> option (sheet_spec * Z)) (l1 l2 : list bom_line) :
  Forall2 (fun a b => snd a = snd b /\ rekey (length l1) widgets (fst a) = widgets (fst b))
          (enumerate (l1 ++ l2))
          (enumerate l1 ++ combine (seq (S (length l1)) (length l2)) l2).
Proof.
  unfold enumerate. rewrite combine_seq_app. cbn [Nat.add].
  apply Forall2_app.
  - apply (combine_seq_Forall2
             (fun i j => rekey (length l1) widgets i = widgets j) l1 0 0).
    intros k Hk. cbn. unfold rekey. by rewrite (proj2 (Nat.ltb_lt k _)) by lia.
  - apply (combine_seq_Forall2
             (fun i j => rekey (length l1) widgets i = widgets j) l2 (length l1)
             (S (length l1))).
    intros k Hk. unfold rekey.
    by rewrite (proj2 (Nat.ltb_ge (length l1 + k) _)) by lia.
Qed.

Section BomFacts.
Variable parts_map : gmap string part.
Variable materials_map : gmap string material.
Variable processes_map : gmap string process_def.
Variable purchased_map : gmap string purchased_item.
Variable packaging_map : gmap string packaging_rule.
Variable qty : Z.

Abbreviation step prod widgets :=
  (bom_line_step parts_map materials_map processes_map purchased_map packaging_map
                 prod qty widgets).
Abbreviation loop prod widgets :=
  (bom_loop parts_map materials_map processes_map purchased_map packaging_map
            prod qty widgets).
Abbreviation price prod widgets :=
  (price_bom parts_map materials_map processes_map purchased_map packaging_map
             prod qty widgets).

Abbreviation unresolved_line :=
  (unresolved parts_map purchased_map packaging_map).

Lemma unresolved_step (prod : product) (widgets : nat -> option (sheet_spec * Z))
    (line : bom_line) (w : warning) (s : quote_state) (idx : nat) :
  unresolved_line line w -> step prod widgets s idx line = Some (warn w s).
Proof.
  intros [l Hty Hc|l Hty Hc|l Hty Hc]; unfold bom_line_step; rewrite Hty, Hc;
    reflexivity.
Qed.

(** A step does not read the warning log: it acts alike on two states that
    differ by one logged warning, and keeps the difference. *)
Lemma step_one_more_warning (prod : product) (widgets : nat -> option (sheet_spec * Z))
    (w : warning) (s1 s2 : quote_state) (idx : nat) (line : bom_line) :
  one_more_warning w s1 s2 ->
  match step prod widgets s1 idx line, step prod widgets s2 idx line with
  | Some s1', Some s2' => one_more_warning w s1' s2'
  | None, None => True
  | _, _ => False
  end.
Proof.
  intros [(Hb & Hp & Ha & Hm & Hpr & Hpu & Hpk) (before & after & Hw1 & Hw2)].
  unfold bom_line_step.
  destruct (String.eqb _ "part").
  { destruct (code line ≫= (parts_map !!.)) as [p|].
    - unfold part_line.
      destruct (choose_sheet _ _ _ _ _ _) as [[[res alts] warns]|]; cbn; [|done].
      destruct (compute_process_costs _ _ _ _) as [pcost prows].
      split; [unfold same_costs; cbn; by rewrite Hb, Hp, Ha, Hm, Hpr, Hpu, Hpk|].
      exists before, (after ++ warns). cbn. rewrite Hw1, Hw2.
      by rewrite <- !app_assoc.
    - split; [done|]. exists before, (after ++ [PartNotFound (code line)]). cbn.
      rewrite Hw1, Hw2. by rewrite <- !app_assoc. }
  destruct (String.eqb _ "purchased").
  { destruct (code line ≫= (purchased_map !!.)) as [item|].
    - split; [unfold same_costs; cbn; by rewrite Hb, Hpu|].
      exists before, after. by cbn.
    - split; [done|]. exists before, (after ++ [PurchasedNotFound (code line)]). cbn.
      rewrite Hw1, Hw2. by rewrite <- !app_assoc. }
  destruct (String.eqb _ "packaging").
  { destruct (code line ≫= (packaging_map !!.)) as [rule|].
    - split; [unfold same_costs; cbn; by rewrite Hb, Hpk|].
      exists before, after. by cbn.
    - split; [done|]. exists before, (after ++ [PackagingNotFound (code line)]). cbn.
      rewrite Hw1, Hw2. by rewrite <- !app_assoc. }
  split; [done|]. by exists before, after.
Qed.

Lemma loop_one_more_warning (prod : product) (widgets : nat -> option (sheet_spec * Z))
    (w : warning) (lines : list (nat * bom_line)) (s1 s2 : quote_state) :
  one_more_warning w s1 s2 ->
  match loop prod widgets s1 lines, loop prod widgets s2 lines with
  | Some s1', Some s2' => one_more_warning w s1' s2'
  | None, None => True
  | _, _ => False
  end.
Proof.
  revert s1 s2. induction lines as [|[idx line] lines IH]; intros s1 s2 H; [done|].
  cbn [bom_loop].
  pose proof (step_one_more_warning prod widgets w s1 s2 idx line H) as Hstep.
  destruct (step prod widgets s1 idx line), (step prod widgets s2 idx line); try done.
  by apply IH.
Qed.

Lemma loop_app (prod : product) (widgets : nat -> option (sheet_spec * Z))
    (pre post : list (nat * bom_line)) (s : quote_state) :
  loop prod widgets s (pre ++ post)
  = loop prod widgets s pre ≫= (fun s' => loop prod widgets s' post).
Proof.
  revert s. induction pre as [|[idx line] pre IH]; intros s; [done|].
  cbn [app bom_loop]. destruct (step prod widgets s idx line); [apply IH|done].
Qed.

(** A step reads the product for its carton size only, and the widgets at
    its own row only. *)
Lemma step_ext (prod prod' : product) (widgets widgets' : nat -> option (sheet_spec * Z))
    (s : quote_state) (idx idx' : nat) (line : bom_line) :
  units_per_carton prod = units_per_carton prod' ->
  widgets idx = widgets' idx' ->
  step prod widgets s idx line = step prod' widgets' s idx' line.
Proof.
  intros Hu Hw. unfold bom_line_step, part_line, choose_sheet, packaging_line.
  by rewrite Hu, Hw.
Qed.

Lemma loop_ext (prod prod' : product) (widgets widgets' : nat -> option (sheet_spec * Z))
    (lines lines' : list (nat * bom_line)) (s : quote_state) :
  units_per_carton prod = units_per_carton prod' ->
  Forall2 (fun a b => snd a = snd b /\ widgets (fst a) = widgets' (fst b)) lines lines' ->
  loop prod widgets s lines = loop prod' widgets' s lines'.
Proof.
  intros Hu H. revert s.
  induction H as [|[i l] [i' l'] lines lines' [Hl Hw] _ IH]; intros s; [done|].
  cbn in Hl, Hw. subst l'. cbn [bom_loop].
  rewrite (step_ext prod prod' widgets widgets' s i i' l Hu Hw).
  destruct (step prod' widgets' s i' l); [apply IH|done].
Qed.

(** C7.  A BOM line whose code is not found in the catalogue of its type is
    left out: its step changes no row and no total and logs exactly one
    warning; the loop over lines that include it ends as the loop over the
    other lines does, rows and totals being the same and the log holding
    that one warning more; and so does the pricing of a product with the
    line against the product without it. *)
Theorem unresolved_line_excluded (prod : product)
    (widgets : nat -> option (sheet_spec * Z)) (line : bom_line) (w : warning) :
  unresolved parts_map purchased_map packaging_map line w ->
  (forall s idx,
     exists s', step prod widgets s idx line = Some s' /\
                same_costs s s' /\ warnings s' = warnings s ++ [w]) /\
  (forall s pre idx post,
     match loop prod widgets s (pre ++ post),
           loop prod widgets s (pre ++ (idx, line) :: post) with
     | Some s1, Some s2 => one_more_warning w s1 s2
     | None, None => True
     | _, _ => False
     end) /\
  (forall l1 l2,
     bom_lines prod = Some (l1 ++ line :: l2) ->
     match price (with_bom_lines (l1 ++ l2) prod) (rekey (length l1) widgets),
           price prod widgets with
     | Some s1, Some s2 => one_more_warning w s1 s2
     | None, None => True
     | _, _ => False
     end).
Proof.
  intros Hu.
  assert (Hloop : forall s pre idx post,
            match loop prod widgets s (pre ++ post),
                  loop prod widgets s (pre ++ (idx, line) :: post) with
            | Some s1, Some s2 => one_more_warning w s1 s2
            | None, None => True
            | _, _ => False
            end).
  { intros s pre idx post. rewrite !loop_app.
    destruct (loop prod widgets s pre) as [s0|]; cbn; [|done].
    rewrite (unresolved_step prod widgets line w s0 idx Hu).
    apply loop_one_more_warning. split; [done|].
    exists (warnings s0), []. cbn. by rewrite app_nil_r. }
  split; [|split; [exact Hloop|]].
  - intros s idx. exists (warn w s). split; [by apply unresolved_step|].
    split; [done|reflexivity].
  - intros l1 l2 Hlines. unfold price_bom. rewrite Hlines. cbn [bom_lines with_bom_lines].
    cbn [from_option id].
    rewrite (loop_ext (with_bom_lines (l1 ++ l2) prod) prod
                      (rekey (length l1) widgets) widgets
                      (enumerate (l1 ++ l2))
                      (enumerate l1 ++ combine (seq (S (length l1)) (length l2)) l2)
                      initial_state eq_refl (enumerate_rekey widgets l1 l2)).
    rewrite enumerate_with_line. apply Hloop.
Qed.
End BomFacts.

(** The line of the unlisted bolt adds its warning to the fresh state and
    nothing else. *)
Lemma unresolved_line_excluded_witness :
  exists s',
    bom_line_step demo_parts demo_materials demo_processes demo_purchased
                  demo_packaging demo_product 100 no_override initial_state 2
                  missing_line = Some s' /\
    same_costs initial_state s' /\
    warnings s' = warnings initial_state ++ [PurchasedNotFound (Some "BOLT-M4"%string)].
Proof.
  apply (unresolved_line_excluded demo_parts demo_materials demo_processes
           demo_purchased demo_packaging 100 demo_product no_override missing_line
           (PurchasedNotFound (Some "BOLT-M4"%string))).
  apply (unresolved_purchased demo_parts demo_purchased demo_packaging missing_line);
    reflexivity.
Defined.

Example demo_product_priced :
  match price_bom demo_parts demo_materials demo_processes demo_purchased
                  demo_packaging demo_product 100 no_override with
  | Some s =>
    (material_total s == 960)%Q /\ (process_total s == 340)%Q /\
    (purchased_total s == 51)%Q /\ (packaging_total s == 15)%Q /\
    length (bom_rows s) = 3%nat /\
    warnings s = [PurchasedNotFound (Some "BOLT-M4"%string)]
  | None => False
  end.
Proof. vm_compute. repeat split. Qed.

(** * Further properties *)

(** ** Quantity tiers *)

Lemma find_multiplier_of_match (tiers : list tier) (qty : Z) (t : tier) :
  last (List.filter (tier_matches qty) (sorted by_min_qty tiers)) = Some t ->
  find_multiplier tiers qty = (multiplier t, Some t).
Proof.
  intros H. unfold find_multiplier. rewrite scan_keeps_last, H. by destruct tiers.
Qed.

Lemma last_match_in_range (tiers : list tier) (qty : Z) (t : tier) :
  last (List.filter (tier_matches qty) (sorted by_min_qty tiers)) = Some t ->
  In t tiers /\ in_range qty t.
Proof.
  intros H%last_Some_elem_of%list_elem_of_In%filter_In. destruct H as [Hin Hm].
  split; [by apply sorted_In in Hin|by apply tier_matches_in_range].
Qed.

Lemma some_match_last (tiers : list tier) (qty : Z) (t : tier) :
  In t tiers -> in_range qty t ->
  exists t', last (List.filter (tier_matches qty) (sorted by_min_qty tiers)) = Some t'.
Proof.
  intros Hin Hr.
  destruct (last (List.filter (tier_matches qty) (sorted by_min_qty tiers)))
    as [t'|] eqn:Hlast; [by exists t'|].
  apply last_None in Hlast.
  assert (H : In t (List.filter (tier_matches qty) (sorted by_min_qty tiers))).
  { apply filter_In. split; [by apply sorted_In|by apply tier_matches_in_range]. }
  rewrite Hlast in H. destruct H.
Qed.

(** X1.  When exactly one tier of the list contains [qty], that tier is the
    one returned. *)
Theorem find_multiplier_unique_match (tiers : list tier) (qty : Z) (t : tier) :
  In t tiers -> in_range qty t ->
  (forall t', In t' tiers -> in_range qty t' -> t' = t) ->
  find_multiplier tiers qty = (multiplier t, Some t).
Proof.
  intros Hin Hr Huniq.
  destruct (some_match_last tiers qty t Hin Hr) as [t' Hlast].
  destruct (last_match_in_range tiers qty t' Hlast) as [Hin' Hr'].
  rewrite (find_multiplier_of_match tiers qty t' Hlast).
  by rewrite (Huniq t' Hin' Hr').
Qed.

Lemma find_multiplier_unique_match_witness :
  find_multiplier demo_tiers 20
  = (1%Q, Some (Build_tier 1 (Some 49) 1%Q None)).
Proof.
  apply (find_multiplier_unique_match demo_tiers 20 (Build_tier 1 (Some 49) 1%Q None)).
  - left. reflexivity.
  - split; simpl; lia.
  - intros t' [<-|[<-|[]]] [H1 H2]; [reflexivity|simpl in H1; lia].
Defined.

Lemma sorted_of_permutation (tiers tiers' : list tier) :
  tiers ≡ₚ tiers' ->
  (forall a b, In a tiers -> In b tiers -> min_qty a = min_qty b -> a = b) ->
  sorted by_min_qty tiers = sorted by_min_qty tiers'.
Proof.
  intros Hp Hd.
  apply (StronglySorted_unique_strong min_qty_le).
  - intros a b Ha%list_elem_of_In%sorted_In Hb%list_elem_of_In%sorted_In Hab Hba.
    apply Hd; [done| |unfold min_qty_le in *; lia].
    eapply Permutation_in; [symmetry; exact Hp|exact Hb].
  - apply ranked_tiers_sorted.
  - apply ranked_tiers_sorted.
  - by rewrite !sorted_perm.
Qed.

(** X2.  When the tiers have pairwise different [min_qty], the order in
    which the catalogue lists them does not change the result. *)
Theorem find_multiplier_order_irrelevant (tiers tiers' : list tier) (qty : Z) :
  tiers ≡ₚ tiers' ->
  (forall a b, In a tiers -> In b tiers -> min_qty a = min_qty b -> a = b) ->
  find_multiplier tiers qty = find_multiplier tiers' qty.
Proof.
  intros Hp Hd. unfold find_multiplier.
  rewrite (sorted_of_permutation tiers tiers' Hp Hd).
  destruct tiers as [|a l], tiers' as [|a' l']; try done.
  by apply Permutation_nil_cons in Hp.
Qed.

Lemma find_multiplier_order_irrelevant_witness :
  find_multiplier demo_tiers 50 = find_multiplier shuffled_tiers 50.
Proof.
  apply (find_multiplier_order_irrelevant demo_tiers shuffled_tiers 50).
  - apply Permutation_swap.
  - intros a b [<-|[<-|[]]] [<-|[<-|[]]] H; (reflexivity || discriminate H).
Defined.

(** ** Process costs *)

(** X3.  Pricing a list of steps made of two parts gives the rows of the
    first part followed by those of the second, and the sum of the two
    totals. *)
Theorem compute_process_costs_app (l1 l2 : list process_step)
    (pm : gmap string process_def) (qty : Z) (pc : string) :
  snd (compute_process_costs (l1 ++ l2) pm qty pc)
    = snd (compute_process_costs l1 pm qty pc)
      ++ snd (compute_process_costs l2 pm qty pc) /\
  (fst (compute_process_costs (l1 ++ l2) pm qty pc)
    == fst (compute_process_costs l1 pm qty pc)
       + fst (compute_process_costs l2 pm qty pc))%Q.
Proof.
  unfold compute_process_costs.
  destruct (process_loop_from pm qty pc (l1 ++ l2) 0%Q []) as [-> ->].
  destruct (process_loop_from pm qty pc l1 0%Q []) as [-> ->].
  destruct (process_loop_from pm qty pc l2 0%Q []) as [-> ->].
  rewrite List.filter_app, !List.map_app, Qsum_app. cbn [app].
  split; [done|ring].
Qed.

Lemma process_rows_affine (pm : gmap string process_def) (qty : Z) (pc : string)
    (steps : list process_step) :
  (Qsum (map row_total_cost (map (process_row_of pm qty pc) steps))
   == Qsum (map row_total_cost (map (process_row_of pm 0 pc) steps))
      + float qty * Qsum (map (runtime_per_unit pm) steps))%Q.
Proof.
  induction steps as [|st steps IH]; cbn [map Qsum]; [ring|].
  rewrite IH. unfold process_row_of, runtime_per_unit, float. cbn. ring.
Qed.

Lemma Qsum_nonneg (l : list Q) :
  (forall x, In x l -> (0 <= x)%Q) -> (0 <= Qsum l)%Q.
Proof.
  induction l as [|x l IH]; intros H; cbn [Qsum]; [apply Qle_refl|].
  assert (0 <= x)%Q by (apply H; by left).
  assert (0 <= Qsum l)%Q by (apply IH; intros y Hy; apply H; by right).
  lra.
Qed.

(** X4.  The process total is affine in the quantity: the total at quantity
    0 plus the quantity times the runtime per unit of the enabled steps.
    Hence, when no enabled step has a negative time or rate, a larger
    quantity never costs less. *)
Theorem process_total_affine (steps : list process_step)
    (pm : gmap string process_def) (pc : string) :
  (forall qty,
     (fst (compute_process_costs steps pm qty pc)
      == fst (compute_process_costs steps pm 0 pc)
         + float qty * Qsum (map (runtime_per_unit pm) (List.filter is_enabled steps)))%Q) /\
  ((forall st, In st steps -> is_enabled st = true -> (0 <= runtime_per_unit pm st)%Q) ->
   forall q1 q2, q1 <= q2 ->
     (fst (compute_process_costs steps pm q1 pc)
      <= fst (compute_process_costs steps pm q2 pc))%Q).
Proof.
  assert (Haff : forall qty,
     (fst (compute_process_costs steps pm qty pc)
      == fst (compute_process_costs steps pm 0 pc)
         + float qty * Qsum (map (runtime_per_unit pm) (List.filter is_enabled steps)))%Q).
  { intros qty. unfold compute_process_costs.
    destruct (process_loop_from pm qty pc steps 0%Q []) as [_ ->].
    destruct (process_loop_from pm 0 pc steps 0%Q []) as [_ ->].
    rewrite process_rows_affine. ring. }
  split; [exact Haff|].
  intros Hpos q1 q2 Hq. rewrite (Haff q1), (Haff q2).
  assert (Hs : (0 <= Qsum (map (runtime_per_unit pm) (List.filter is_enabled steps)))%Q).
  { apply Qsum_nonneg. intros x (st & <- & Hst)%in_map_iff.
    apply filter_In in Hst as [Hin Hen]. by apply Hpos. }
  assert (Hf : (float q1 <= float q2)%Q) by (unfold float; by rewrite <- Zle_Qle).
  apply Qplus_le_r. apply Qmult_le_compat_r; [exact Hf|exact Hs].
Qed.

Lemma process_total_affine_witness :
  (fst (compute_process_costs [cut_step; unlisted_step] demo_processes 10 "PART-1")
   <= fst (compute_process_costs [cut_step; unlisted_step] demo_processes 25 "PART-1"))%Q.
Proof.
  apply (process_total_affine [cut_step; unlisted_step] demo_processes "PART-1").
  - intros st [<-|[<-|[]]] _; vm_compute; discriminate.
  - lia.
Defined.

(** ** Sheet layout *)

Lemma py_max_0_nonneg (a : Q) : (0 <= py_max a 0)%Q.
Proof.
  unfold py_max. destruct (Qgtb 0 a) eqn:H; [apply Qle_refl|].
  by apply Qgtb_le in H.
Qed.

Lemma usable_L_nonneg (opt : sheet_option) (p : part) : (0 <= usable_L opt p)%Q.
Proof. apply py_max_0_nonneg. Qed.

Lemma usable_W_nonneg (opt : sheet_option) (p : part) : (0 <= usable_W opt p)%Q.
Proof. apply py_max_0_nonneg. Qed.

Lemma fit_nonneg (usable pitch : Q) : (0 <= usable)%Q -> 0 <= fit usable pitch.
Proof.
  intros Hu. unfold fit. destruct (Qgtb pitch 0) eqn:Hp; [|lia].
  apply Qgtb_gt in Hp. change 0 with (Qfloor 0). apply Qfloor_resp_le.
  apply Qle_shift_div_l; [exact Hp|]. lra.
Qed.

Lemma fit_too_small (usable pitch : Q) :
  (0 <= usable)%Q -> (usable < pitch)%Q -> fit usable pitch = 0.
Proof.
  intros Hu Hlt. pose proof (fit_nonneg usable pitch Hu) as Hge.
  unfold fit in *. destruct (Qgtb pitch 0) eqn:Hp; [|done].
  apply Qgtb_gt in Hp.
  assert (Hq : (usable / pitch < 1)%Q) by (apply Qlt_shift_div_r; lra).
  pose proof (Qfloor_le (usable / pitch)) as Hf.
  assert (Hz : (inject_Z (Qfloor (usable / pitch)) < inject_Z 1)%Q).
  { change (inject_Z 1) with 1%Q. lra. }
  rewrite <- Zlt_Qlt in Hz. lia.
Qed.

Lemma layout_fields (opt : sheet_option) (p : part) (qty : Z) (ov : option Z) :
  count_a (compute_sheet_layout opt p qty ov)
    = fit (usable_L opt p) (pitch_L p) * fit (usable_W opt p) (pitch_W p) /\
  count_b (compute_sheet_layout opt p qty ov)
    = (if default true (allow_rotate p)
       then fit (usable_L opt p) (pitch_W p) * fit (usable_W opt p) (pitch_L p)
       else 0) /\
  raw_count (compute_sheet_layout opt p qty ov)
    = Z.max (count_a (compute_sheet_layout opt p qty ov))
            (count_b (compute_sheet_layout opt p qty ov)) /\
  pieces_per_sheet_calc (compute_sheet_layout opt p qty ov)
    = (if raw_count (compute_sheet_layout opt p qty ov) >? 0
       then Z.max 1 (Qfloor (float (raw_count (compute_sheet_layout opt p qty ov))
                             * default 0.85%Q (nest_efficiency p)))
       else 1) /\
  pieces_per_sheet (compute_sheet_layout opt p qty None)
    = pieces_per_sheet_calc (compute_sheet_layout opt p qty None) /\
  sheets_needed (compute_sheet_layout opt p qty ov)
    = Qceiling (truediv qty (pieces_per_sheet (compute_sheet_layout opt p qty ov))).
Proof.
  repeat (split; [reflexivity|]).
  pose proof (pieces_per_sheet_ge_1 opt p qty ov) as Hge.
  unfold compute_sheet_layout in *. cbn [pieces_per_sheet sheets_needed] in *.
  by rewrite (proj2 (Z.gtb_gt _ 0)) by lia.
Qed.

(** X5.  The two orientation counts and the raw count are never negative,
    whatever the dimensions of sheet and blank. *)
Theorem layout_counts_nonneg (opt : sheet_option) (p : part) (qty : Z) (ov : option Z) :
  0 <= count_a (compute_sheet_layout opt p qty ov) /\
  0 <= count_b (compute_sheet_layout opt p qty ov) /\
  0 <= raw_count (compute_sheet_layout opt p qty ov).
Proof.
  destruct (layout_fields opt p qty ov) as (Ha & Hb & Hr & _).
  pose proof (usable_L_nonneg opt p) as HL. pose proof (usable_W_nonneg opt p) as HW.
  assert (H1 : 0 <= count_a (compute_sheet_layout opt p qty ov)).
  { rewrite Ha. apply Z.mul_nonneg_nonneg; by apply fit_nonneg. }
  assert (H2 : 0 <= count_b (compute_sheet_layout opt p qty ov)).
  { rewrite Hb. destruct (default true (allow_rotate p)); [|lia].
    apply Z.mul_nonneg_nonneg; by apply fit_nonneg. }
  rewrite Hr. lia.
Qed.

Lemma truediv_bounds (a n c : Z) :
  0 < n -> c = Qceiling (truediv a n) -> a <= n * c /\ n * (c - 1) < a.
Proof.
  intros Hn ->. set (x := truediv a n).
  assert (Hn' : (0 < inject_Z n)%Q) by (change 0%Q with (inject_Z 0); by rewrite <- Zlt_Qlt).
  assert (Hx : (x * inject_Z n == inject_Z a)%Q).
  { unfold x, truediv, float. field. lra. }
  pose proof (Qle_ceiling x) as Hle. pose proof (Qceiling_lt x) as Hlt.
  split.
  - rewrite Zle_Qle, inject_Z_mult, <- Hx.
    rewrite (Qmult_comm (inject_Z n)). apply Qmult_le_compat_r; [exact Hle|lra].
  - rewrite Zlt_Qlt, inject_Z_mult, <- Hx.
    rewrite (Qmult_comm (inject_Z n)). apply Qmult_lt_compat_r; [exact Hn'|exact Hlt].
Qed.


Lemma calc_mono_raw (raw1 raw2 : Z) (e : Q) :
  raw1 <= raw2 ->
  (if raw1 >? 0 then Z.max 1 (Qfloor (float raw1 * e)) else 1)
  <= (if raw2 >? 0 then Z.max 1 (Qfloor (float raw2 * e)) else 1).
Proof.
  intros Hle.
  destruct (raw1 >? 0) eqn:H1, (raw2 >? 0) eqn:H2; try lia.
  apply Z.gtb_gt in H1.
  assert (Hf1 : (0 < float raw1)%Q).
  { unfold float. change 0%Q with (inject_Z 0). rewrite <- Zlt_Qlt. lia. }
  assert (Hf : (float raw1 <= float raw2)%Q) by (unfold float; by rewrite <- Zle_Qle).
  destruct (Qlt_le_dec e 0) as [Hneg|Hpos].
  - assert (Hx : (float raw1 * e < 0)%Q).
    { assert (Hx' : (float raw1 * e < float raw1 * 0)%Q) by (by apply Qmult_lt_l).
      lra. }
    pose proof (Qfloor_le (float raw1 * e)) as Hfl.
    assert (Hz : (inject_Z (Qfloor (float raw1 * e)) < inject_Z 0)%Q).
    { change (inject_Z 0) with 0%Q. lra. }
    rewrite <- Zlt_Qlt in Hz. lia.
  - apply Z.max_le_compat_l, Qfloor_resp_le.
    by apply Qmult_le_compat_r.
Qed.

Lemma ceil_antitone (qty n1 n2 : Z) :
  0 <= qty -> 0 < n1 -> n1 <= n2 ->
  Qceiling (truediv qty n2) <= Qceiling (truediv qty n1).
Proof.
  intros Hq H1 H12. apply Qceiling_resp_le.
  assert (Hn1 : (0 < inject_Z n1)%Q) by (change 0%Q with (inject_Z 0); by rewrite <- Zlt_Qlt).
  assert (Hn12 : (inject_Z n1 <= inject_Z n2)%Q) by (by rewrite <- Zle_Qle).
  assert (Hq' : (0 <= inject_Z qty)%Q) by (change 0%Q with (inject_Z 0); by rewrite <- Zle_Qle).
  unfold truediv, float.
  apply Qle_shift_div_r; [lra|].
  assert (Hx : (inject_Z qty / inject_Z n1 * inject_Z n1 == inject_Z qty)%Q)
    by (field; lra).
  assert (Hx0 : (0 <= inject_Z qty / inject_Z n1)%Q)
    by (apply Qle_shift_div_l; lra).
  rewrite <- Hx at 1.
  destruct (Qlt_le_dec 0 (inject_Z qty / inject_Z n1)) as [Hpos|Hz].
  - by apply Qmult_le_l.
  - assert (Heq : (inject_Z qty / inject_Z n1 == 0)%Q) by lra. rewrite Heq. lra.
Qed.

(** X7.  Allowing rotation never lowers the raw count nor the calculated
    pieces per sheet, and for a non-negative quantity never raises the
    sheets needed. *)
Theorem rotation_never_hurts (opt : sheet_option) (p : part) (qty : Z) :
  raw_count (compute_sheet_layout opt (with_allow_rotate false p) qty None)
    <= raw_count (compute_sheet_layout opt (with_allow_rotate true p) qty None) /\
  pieces_per_sheet_calc (compute_sheet_layout opt (with_allow_rotate false p) qty None)
    <= pieces_per_sheet_calc (compute_sheet_layout opt (with_allow_rotate true p) qty None) /\
  (0 <= qty ->
   sheets_needed (compute_sheet_layout opt (with_allow_rotate true p) qty None)
     <= sheets_needed (compute_sheet_layout opt (with_allow_rotate false p) qty None)).
Proof.
  destruct (layout_fields opt (with_allow_rotate true p) qty None)
    as (Ha1 & Hb1 & Hr1 & Hc1 & Hp1 & Hs1).
  assert (Hb : 0 <= count_b (compute_sheet_layout opt (with_allow_rotate true p) qty None)).
  { rewrite Hb1. cbn [allow_rotate with_allow_rotate from_option id].
    apply Z.mul_nonneg_nonneg; apply fit_nonneg;
      [apply usable_L_nonneg|apply usable_W_nonneg]. }
  destruct (layout_fields opt (with_allow_rotate false p) qty None)
    as (Ha0 & Hb0 & Hr0 & Hc0 & Hp0 & Hs0).
  assert (Hraw : raw_count (compute_sheet_layout opt (with_allow_rotate false p) qty None)
                 <= raw_count (compute_sheet_layout opt (with_allow_rotate true p) qty None)).
  { rewrite Hr0, Hr1, Ha0, Ha1, Hb0. cbn [allow_rotate with_allow_rotate from_option id].
    change (usable_L opt (with_allow_rotate false p)) with (usable_L opt (with_allow_rotate true p)).
    change (usable_W opt (with_allow_rotate false p)) with (usable_W opt (with_allow_rotate true p)).
    change (pitch_L (with_allow_rotate false p)) with (pitch_L (with_allow_rotate true p)).
    change (pitch_W (with_allow_rotate false p)) with (pitch_W (with_allow_rotate true p)).
    lia. }
  assert (Hcalc :
    pieces_per_sheet_calc (compute_sheet_layout opt (with_allow_rotate false p) qty None)
    <= pieces_per_sheet_calc (compute_sheet_layout opt (with_allow_rotate true p) qty None)).
  { rewrite Hc0, Hc1. cbn [nest_efficiency with_allow_rotate]. by apply calc_mono_raw. }
  split; [exact Hraw|]. split; [exact Hcalc|].
  intros Hq. rewrite Hs0, Hs1, Hp0, Hp1.
  apply ceil_antitone; [exact Hq| |exact Hcalc].
  pose proof (pieces_calc_ge_1 opt (with_allow_rotate false p) qty None). lia.
Qed.

Lemma rotation_never_hurts_witness :
  sheets_needed (compute_sheet_layout small_sheet (with_allow_rotate true demo_part) 100 None)
  <= sheets_needed (compute_sheet_layout small_sheet (with_allow_rotate false demo_part) 100 None).
Proof.
  apply (rotation_never_hurts small_sheet demo_part 100). lia.
Defined.

(** X8.  A blank too large for the sheet (longer than its usable length, or
    wider than its usable width, in both orientations) is not refused: the
    raw count is 0, one piece per sheet is assumed and, without override,
    as many sheets as pieces are charged. *)
Theorem oversized_blank_one_per_sheet (opt : sheet_option) (p : part) (qty : Z) :
  ((usable_L opt p < pitch_L p)%Q /\ (usable_L opt p < pitch_W p)%Q) \/
  ((usable_W opt p < pitch_W p)%Q /\ (usable_W opt p < pitch_L p)%Q) ->
  raw_count (compute_sheet_layout opt p qty None) = 0 /\
  pieces_per_sheet_calc (compute_sheet_layout opt p qty None) = 1 /\
  sheets_needed (compute_sheet_layout opt p qty None) = qty /\
  (material_cost (sheet_row_of p qty opt) == float qty * default 0%Q (sheet_price opt))%Q.
Proof.
  intros Hbig.
  destruct (layout_fields opt p qty None) as (Ha & Hb & Hr & Hc & Hp & Hs).
  pose proof (usable_L_nonneg opt p) as HL. pose proof (usable_W_nonneg opt p) as HW.
  assert (Hraw : raw_count (compute_sheet_layout opt p qty None) = 0).
  { rewrite Hr, Ha, Hb. destruct Hbig as [[H1 H2]|[H1 H2]].
    - rewrite (fit_too_small _ _ HL H1), (fit_too_small _ _ HL H2).
      destruct (default true (allow_rotate p)); lia.
    - rewrite (fit_too_small _ _ HW H1), (fit_too_small _ _ HW H2).
      destruct (default true (allow_rotate p)); lia. }
  assert (Hcalc : pieces_per_sheet_calc (compute_sheet_layout opt p qty None) = 1).
  { rewrite Hc, Hraw. reflexivity. }
  assert (Hneed : sheets_needed (compute_sheet_layout opt p qty None) = qty).
  { rewrite Hs, Hp, Hcalc.
    assert (H1 : (truediv qty 1 == inject_Z qty)%Q) by (unfold truediv, float; field).
    rewrite H1. apply Qceiling_Z. }
  split; [exact Hraw|]. split; [exact Hcalc|]. split; [exact Hneed|].
  unfold sheet_row_of. cbn [material_cost]. rewrite Hneed. reflexivity.
Qed.

Lemma oversized_blank_one_per_sheet_witness :
  sheets_needed (compute_sheet_layout demo_sheet huge_part 7 None) = 7.
Proof.
  apply (oversized_blank_one_per_sheet demo_sheet huge_part 7).
  left. split; reflexivity.
Defined.

(** X9.  With a nesting efficiency between 0 and 1 the calculated pieces
    per sheet never exceeds the raw count, except for the floor of one
    piece. *)
Theorem pieces_calc_at_most_raw (opt : sheet_option) (p : part) (qty : Z) (ov : option Z) :
  (0 <= default 0.85%Q (nest_efficiency p))%Q ->
  (default 0.85%Q (nest_efficiency p) <= 1)%Q ->
  pieces_per_sheet_calc (compute_sheet_layout opt p qty ov)
    <= Z.max 1 (raw_count (compute_sheet_layout opt p qty ov)).
Proof.
  intros H0 H1.
  destruct (layout_fields opt p qty ov) as (_ & _ & _ & Hc & _). rewrite Hc.
  set (raw := raw_count _). destruct (raw >? 0) eqn:Hraw; [|lia].
  apply Z.gtb_gt in Hraw. apply Z.max_le_compat_l.
  rewrite <- (Qfloor_Z raw) at 2. apply Qfloor_resp_le.
  assert (Hf : (0 <= float raw)%Q).
  { unfold float. change 0%Q with (inject_Z 0). rewrite <- Zle_Qle. lia. }
  unfold float in *.
  assert (Hm : (inject_Z raw * default 0.85%Q (nest_efficiency p) <= inject_Z raw * 1)%Q).
  { destruct (Qlt_le_dec 0 (inject_Z raw)) as [Hpos|Hz].
    - by apply Qmult_le_l.
    - assert (Heq : (inject_Z raw == 0)%Q) by lra. rewrite Heq. lra. }
  lra.
Qed.

Lemma pieces_calc_at_most_raw_witness :
  pieces_per_sheet_calc (compute_sheet_layout demo_sheet demo_part 100 None)
    <= Z.max 1 (raw_count (compute_sheet_layout demo_sheet demo_part 100 None)).
Proof.
  apply (pieces_calc_at_most_raw demo_sheet demo_part 100 None); vm_compute; congruence.
Defined.

(** ** Sheet selection *)

Lemma evaluate_sheet_options_eq (opts : list sheet_option) (p : part) (qty : Z) :
  evaluate_sheet_options opts p qty
  = (sorted by_material_cost (map (sheet_row_of p qty) (closest_options p opts)),
     head (sorted by_material_cost (map (sheet_row_of p qty) (closest_options p opts)))).
Proof. by destruct opts. Qed.

Lemma least_diff_le (p : part) (opts : list sheet_option) (o : sheet_option) :
  In o opts -> (least_diff p opts <= thickness_diff p o)%Q.
Proof.
  intros Hin. unfold least_diff. destruct opts as [|o0 opts]; [destruct Hin|].
  cbn [map]. apply py_min_from. change (In (thickness_diff p o) (map (thickness_diff p) (o0 :: opts))).
  by apply in_map.
Qed.

Lemma least_diff_nonneg (p : part) (opts : list sheet_option) :
  (0 <= least_diff p opts)%Q.
Proof.
  unfold least_diff. destruct opts as [|o0 opts]; [apply Qle_refl|].
  cbn [map].
  destruct (py_min_from (map (thickness_diff p) opts) (thickness_diff p o0)) as [Hin _].
  change (In (py_min (thickness_diff p o0) (map (thickness_diff p) opts))
             (map (thickness_diff p) (o0 :: opts))) in Hin.
  apply in_map_iff in Hin as (o & <- & _). apply Qabs_nonneg.
Qed.

Lemma ranked_row_closest (opts : list sheet_option) (p : part) (qty : Z) (r : sheet_row) :
  In r (fst (evaluate_sheet_options opts p qty)) ->
  exists o, In o opts /\ r = sheet_row_of p qty o /\
            (thickness_diff p o == least_diff p opts)%Q.
Proof.
  rewrite evaluate_sheet_options_eq. cbn [fst].
  intros (o & <- & Ho)%sorted_In%in_map_iff.
  apply filter_In in Ho as [Hin Heq]. exists o. split; [done|]. split; [done|].
  by apply Qeq_bool_iff.
Qed.

(** X10.  When some sheet option has exactly the thickness of the part,
    every ranked row, and so the recommended one, has that thickness: a
    sheet of another thickness is never proposed. *)
Theorem exact_thickness_only (opts : list sheet_option) (p : part) (qty : Z) :
  (exists o, In o opts /\
     (default 0%Q (opt_thickness_mm o) == default 0%Q (thickness_mm p))%Q) ->
  forall r, In r (fst (evaluate_sheet_options opts p qty)) ->
    (default 0%Q (opt_thickness_mm (row_sheet_option r))
     == default 0%Q (thickness_mm p))%Q.
Proof.
  intros (o & Ho & Heq) r Hr.
  apply ranked_row_closest in Hr as (o' & Ho' & -> & Hd).
  cbn [row_sheet_option sheet_row_of].
  pose proof (least_diff_le p opts o Ho) as Hle.
  pose proof (least_diff_nonneg p opts) as Hge.
  assert (Hz : (thickness_diff p o == 0)%Q).
  { unfold thickness_diff. rewrite Heq.
    setoid_replace (default 0%Q (thickness_mm p) - default 0%Q (thickness_mm p))%Q
      with 0%Q using relation Qeq by ring.
    reflexivity. }
  assert (Hd0 : (thickness_diff p o' <= 0)%Q) by lra.
  unfold thickness_diff in Hd0. apply Qabs_Qle_condition in Hd0. lra.
Qed.

Lemma exact_thickness_only_witness :
  (default 0%Q (opt_thickness_mm (row_sheet_option (sheet_row_of demo_part 100 small_sheet)))
   == default 0%Q (thickness_mm demo_part))%Q.
Proof.
  apply (exact_thickness_only demo_sheets demo_part 100).
  - exists demo_sheet. split; [right; left; reflexivity|reflexivity].
  - vm_compute. right. left. reflexivity.
Defined.

(** X11.  Among the closest options of equal material cost the list order
    decides: the recommended row is the first row, in option order, whose
    cost is the cost of the recommendation. *)
Theorem recommendation_tie_break (opts : list sheet_option) (p : part) (qty : Z)
    (rec : sheet_row) :
  snd (evaluate_sheet_options opts p qty) = Some rec ->
  head (List.filter (fun r => Qeq_bool (material_cost r) (material_cost rec))
                    (map (sheet_row_of p qty) (closest_options p opts)))
  = Some rec.
Proof.
  rewrite evaluate_sheet_options_eq. cbn [snd]. intros Hhead.
  rewrite <- (sorted_stable by_material_cost
                (fun r => Qeq_bool (material_cost r) (material_cost rec))).
  - destruct (sorted by_material_cost _) as [|r0 rows]; [done|].
    injection Hhead as ->. cbn [List.filter].
    by rewrite (proj2 (Qeq_bool_iff _ _) (Qeq_refl (material_cost rec))).
  - intros x y Hx%Qeq_bool_iff Hy%Qeq_bool_iff.
    unfold by_material_cost. apply Qle_bool_iff. rewrite Hx, Hy. apply Qle_refl.
Qed.

Lemma recommendation_tie_break_witness :
  head (List.filter
          (fun r => Qeq_bool (material_cost r)
                             (material_cost (sheet_row_of demo_part 100 demo_sheet)))
          (map (sheet_row_of demo_part 100) (closest_options demo_part demo_sheets)))
  = Some (sheet_row_of demo_part 100 demo_sheet).
Proof.
  apply (recommendation_tie_break demo_sheets demo_part 100). reflexivity.
Defined.

(** ** Invariants of the BOM loop *)

Lemma process_total_is_row_sum (steps : list process_step)
    (pm : gmap string process_def) (qty : Z) (pc : string) :
  (fst (compute_process_costs steps pm qty pc)
   == Qsum (map row_total_cost (snd (compute_process_costs steps pm qty pc))))%Q.
Proof.
  unfold compute_process_costs.
  destruct (process_loop_from pm qty pc steps 0%Q []) as [-> ->]. cbn [app]. ring.
Qed.

Lemma initial_totals_add_up : totals_add_up initial_state.
Proof. unfold totals_add_up. cbn. ring. Qed.

Lemma initial_buckets_add_up : buckets_add_up initial_state.
Proof. unfold buckets_add_up. cbn. repeat split; ring. Qed.

Section BomInvariants.
Variable parts_map : gmap string part.
Variable materials_map : gmap string material.
Variable processes_map : gmap string process_def.
Variable purchased_map : gmap string purchased_item.
Variable packaging_map : gmap string packaging_rule.
Variable qty : Z.
Variable prod : product.
Variable widgets : nat -> option (sheet_spec * Z).

Abbreviation step_here :=
  (bom_line_step parts_map materials_map processes_map purchased_map packaging_map
                 prod qty widgets).
Abbreviation loop_here :=
  (bom_loop parts_map materials_map processes_map purchased_map packaging_map
            prod qty widgets).
Abbreviation price_here :=
  (price_bom parts_map materials_map processes_map purchased_map packaging_map
             prod qty widgets).

Lemma loop_preserves (P : quote_state -> Prop) :
  (forall s idx line s', step_here s idx line = Some s' -> P s -> P s') ->
  forall lines s s', loop_here s lines = Some s' -> P s -> P s'.
Proof.
  intros Hstep lines. induction lines as [|[idx line] lines IH]; intros s s' Hl Hs.
  - by injection Hl as <-.
  - cbn [bom_loop] in Hl. destruct (step_here s idx line) as [s1|] eqn:H1; [|done].
    eapply IH; [exact Hl|]. by eapply Hstep.
Qed.

Lemma step_totals_add_up (s : quote_state) (idx : nat) (line : bom_line)
    (s' : quote_state) :
  step_here s idx line = Some s' -> totals_add_up s -> totals_add_up s'.
Proof.
  unfold bom_line_step, totals_add_up. intros Hstep Hs.
  destruct (String.eqb _ "part").
  { destruct (code line ≫= (parts_map !!.)) as [p|].
    - unfold part_line in Hstep.
      destruct (choose_sheet _ _ _ _ _ _) as [[[res alts] warns]|]; cbn in Hstep; [|done].
      destruct (compute_process_costs _ _ _ _) as [pcost prows].
      injection Hstep as <-. cbn. rewrite List.map_app, Qsum_app. cbn. lra.
    - by injection Hstep as <-. }
  destruct (String.eqb _ "purchased").
  { destruct (code line ≫= (purchased_map !!.)) as [item|]; injection Hstep as <-;
      [|done].
    cbn. rewrite List.map_app, Qsum_app. cbn. lra. }
  destruct (String.eqb _ "packaging").
  { destruct (code line ≫= (packaging_map !!.)) as [rule|]; injection Hstep as <-;
      [|done].
    cbn. rewrite List.map_app, Qsum_app. cbn. lra. }
  by injection Hstep as <-.
Qed.

(** X12.  The loop keeps the books balanced: if the four totals add up to
    the line totals of the BOM rows before a run of the loop, they do after
    it; so for every priced product material, process, purchased and
    packaging totals together equal the sum of the line totals shown. *)
Theorem bom_totals_add_up :
  (forall lines s s', loop_here s lines = Some s' -> totals_add_up s -> totals_add_up s') /\
  (forall s, price_here = Some s -> totals_add_up s).
Proof.
  split.
  - apply (loop_preserves totals_add_up). apply step_totals_add_up.
  - intros s Hs.
    apply (loop_preserves totals_add_up step_totals_add_up _ _ _ Hs).
    apply initial_totals_add_up.
Qed.

Lemma step_buckets_add_up (s : quote_state) (idx : nat) (line : bom_line)
    (s' : quote_state) :
  step_here s idx line = Some s' -> buckets_add_up s -> buckets_add_up s'.
Proof.
  unfold bom_line_step, buckets_add_up, rows_of_type.
  intros Hstep (Hpb & Hm & Hp & Hpu & Hpk).
  destruct (String.eqb _ "part").
  { destruct (code line ≫= (parts_map !!.)) as [p|].
    - unfold part_line in Hstep.
      destruct (choose_sheet _ _ _ _ _ _) as [[[res alts] warns]|]; cbn in Hstep; [|done].
      pose proof (process_total_is_row_sum (default [] (process_steps p)) processes_map
                    (Qceiling (float qty * default 1%Q (qty_per_unit line)))
                    (part_code p)) as Hsum.
      destruct (compute_process_costs _ _ _ _) as [pcost prows].
      cbn [fst snd] in Hsum.
      injection Hstep as <-. cbn.
      rewrite !List.filter_app, !List.map_app, !Qsum_app. cbn.
      repeat split; lra.
    - injection Hstep as <-. by cbn. }
  destruct (String.eqb _ "purchased").
  { destruct (code line ≫= (purchased_map !!.)) as [item|]; injection Hstep as <-;
      [|by cbn].
    cbn. rewrite !List.filter_app, !List.map_app, !Qsum_app. cbn.
    repeat split; lra. }
  destruct (String.eqb _ "packaging").
  { destruct (code line ≫= (packaging_map !!.)) as [rule|]; injection Hstep as <-;
      [|by cbn].
    cbn. rewrite !List.filter_app, !List.map_app, !Qsum_app. cbn.
    repeat split; lra. }
  by injection Hstep as <-.
Qed.

(** X13.  Each total matches its column: for every priced product the
    process total is the sum of the process breakdown and of the process
    costs of the BOM rows, the material total the sum of their material
    costs, the purchased and packaging totals the sums of the line totals of
    the rows of their type. *)
Theorem bom_buckets_add_up :
  (forall lines s s', loop_here s lines = Some s' -> buckets_add_up s -> buckets_add_up s') /\
  (forall s, price_here = Some s -> buckets_add_up s).
Proof.
  split.
  - apply (loop_preserves buckets_add_up). apply step_buckets_add_up.
  - intros s Hs.
    apply (loop_preserves buckets_add_up step_buckets_add_up _ _ _ Hs).
    apply initial_buckets_add_up.
Qed.

Lemma choose_sheet_without_override (idx : nat) (c : option string) (p : part)
    (part_qty : Z) :
  widgets idx = None ->
  exists out, choose_sheet materials_map widgets idx c p part_qty = Some out.
Proof.
  intros Hw. unfold choose_sheet. rewrite Hw.
  destruct (String.eqb _ "by_sheet"); [|by eexists].
  destruct (evaluate_sheet_options _ _ _) as [rows [rec|]]; by eexists.
Qed.

Lemma step_without_override (s : quote_state) (idx : nat) (line : bom_line) :
  widgets idx = None ->
  exists s', step_here s idx line = Some s' /\
    length (bom_rows s')
    = (length (bom_rows s)
       + if resolves parts_map purchased_map packaging_map line then 1 else 0)%nat.
Proof.
  intros Hw. unfold bom_line_step, resolves.
  destruct (String.eqb _ "part").
  { destruct (code line ≫= (parts_map !!.)) as [p|].
    - unfold part_line.
      destruct (choose_sheet_without_override idx (code line) p
                  (Qceiling (float qty * default 1%Q (qty_per_unit line))) Hw)
        as [[[res alts] warns] ->].
      cbn. destruct (compute_process_costs _ _ _ _) as [pcost prows].
      eexists. split; [reflexivity|]. cbn. by rewrite length_app.
    - eexists. split; [reflexivity|]. cbn. lia. }
  destruct (String.eqb _ "purchased").
  { destruct (code line ≫= (purchased_map !!.)) as [item|];
      (eexists; split; [reflexivity|]; cbn; rewrite ?length_app; cbn; lia). }
  destruct (String.eqb _ "packaging").
  { destruct (code line ≫= (packaging_map !!.)) as [rule|];
      (eexists; split; [reflexivity|]; cbn; rewrite ?length_app; cbn; lia). }
  eexists. split; [reflexivity|]. lia.
Qed.

(** X14.  With no engineering override switched on the pricing never
    breaks off, and it shows one BOM row for every line that resolves: a
    line of a priced type whose code is in its catalogue. *)
Theorem no_override_never_fails :
  (forall idx, widgets idx = None) ->
  (forall lines s,
     exists s', loop_here s lines = Some s' /\
       length (bom_rows s')
       = (length (bom_rows s)
          + length (List.filter (resolves parts_map purchased_map packaging_map)
                                (map snd lines)))%nat) /\
  (exists s, price_here = Some s /\
     length (bom_rows s)
     = length (List.filter (resolves parts_map purchased_map packaging_map)
                           (default [] (bom_lines prod)))).
Proof.
  intros Hw.
  assert (Hloop : forall lines s,
     exists s', loop_here s lines = Some s' /\
       length (bom_rows s')
       = (length (bom_rows s)
          + length (List.filter (resolves parts_map purchased_map packaging_map)
                                (map snd lines)))%nat).
  { induction lines as [|[idx line] lines IH]; intros s.
    - exists s. split; [done|]. cbn. lia.
    - destruct (step_without_override s idx line (Hw idx)) as (s1 & Hs1 & Hlen1).
      destruct (IH s1) as (s' & Hs' & Hlen').
      exists s'. cbn [bom_loop]. rewrite Hs1. split; [exact Hs'|].
      rewrite Hlen', Hlen1. cbn [map snd List.filter].
      destruct (resolves _ _ _ line); cbn [length]; lia. }
  split; [exact Hloop|].
  unfold price_bom, enumerate.
  destruct (Hloop (combine (seq 0 (length (default [] (bom_lines prod))))
                           (default [] (bom_lines prod))) initial_state)
    as (s & Hs & Hlen).
  exists s. split; [exact Hs|]. rewrite Hlen. cbn [bom_rows initial_state length].
  rewrite Nat.add_0_l. f_equal. f_equal.
  generalize (default [] (bom_lines prod)) 0%nat.
  intros l. induction l as [|x l IH]; intros n; [done|].
  cbn. by rewrite IH.
Qed.

(** X15.  A line whose type is none of part, purchased and packaging is
    passed over without a word: its step leaves the state as it is (no row,
    no total, no warning), and the loop ends as it does without the line. *)
Theorem unknown_line_type_ignored (line : bom_line) :
  known_type line = false ->
  (forall s idx, step_here s idx line = Some s) /\
  (forall s pre idx post,
     loop_here s (pre ++ (idx, line) :: post) = loop_here s (pre ++ post)).
Proof.
  unfold known_type. intros H.
  apply orb_false_iff in H as [H H3]. apply orb_false_iff in H as [H1 H2].
  assert (Hstep : forall s idx, step_here s idx line = Some s).
  { intros s idx. unfold bom_line_step. by rewrite H1, H2, H3. }
  split; [exact Hstep|].
  intros s pre idx post. rewrite !loop_app.
  destruct (loop_here s pre) as [s0|]; [|done].
  cbn. by rewrite Hstep.
Qed.
End BomInvariants.

Lemma no_override_never_fails_witness :
  exists s,
    price_bom demo_parts demo_materials demo_processes demo_purchased demo_packaging
              demo_product 100 no_override = Some s /\
    length (bom_rows s)
    = length (List.filter (resolves demo_parts demo_purchased demo_packaging)
                          (default [] (bom_lines demo_product))).
Proof.
  apply (no_override_never_fails demo_parts demo_materials demo_processes
           demo_purchased demo_packaging 100 demo_product no_override).
  reflexivity.
Defined.

Lemma unknown_line_type_ignored_witness :
  bom_line_step demo_parts demo_materials demo_processes demo_purchased demo_packaging
                demo_product 100 no_override initial_state 4 memo_line
  = Some initial_state.
Proof.
  apply (unknown_line_type_ignored demo_parts demo_materials demo_processes
           demo_purchased demo_packaging 100 demo_product no_override memo_line).
  reflexivity.
Defined.

Lemma bom_totals_add_up_witness :
  exists s,
    price_bom demo_parts demo_materials demo_processes demo_purchased demo_packaging
              demo_product 100 no_override = Some s /\
    totals_add_up s.
Proof.
  eexists. split; [vm_compute; reflexivity|].
  apply (bom_totals_add_up demo_parts demo_materials demo_processes demo_purchased
           demo_packaging 100 demo_product no_override).
  vm_compute. reflexivity.
Defined.

Lemma bom_buckets_add_up_witness :
  exists s,
    price_bom demo_parts demo_materials demo_processes demo_purchased demo_packaging
              demo_product 100 no_override = Some s /\
    buckets_add_up s.
Proof.
  eexists. split; [vm_compute; reflexivity|].
  apply (bom_buckets_add_up demo_parts demo_materials demo_processes demo_purchased
           demo_packaging 100 demo_product no_override).
  vm_compute. reflexivity.
Defined.

(** ** The three kinds of BOM line *)

(** X16.  A part whose material is not priced by sheet, in particular a
    part whose material code is not in the materials catalogue, is still
    priced: its row shows material cost 0 and no sheet, its line total is
    its process cost, and no warning is raised. *)
Theorem part_without_sheet_pricing (materials_map : gmap string material)
    (processes_map : gmap string process_def) (qty : Z)
    (widgets : nat -> option (sheet_spec * Z)) (s : quote_state) (idx : nat)
    (line : bom_line) (p : part) :
  (materials_map !! default ""%string (material_code p) = None ->
   priced_by_sheet materials_map p = false) /\
  (priced_by_sheet materials_map p = false ->
   exists s' row,
     part_line materials_map processes_map qty widgets s idx line p = Some s' /\
     bom_rows s' = bom_rows s ++ [row] /\
     bom_material_cost row = 0%Q /\
     bom_sheet_spec row = None /\
     (bom_line_total row
      == fst (compute_process_costs (default [] (process_steps p)) processes_map
                (Qceiling (float qty * default 1%Q (qty_per_unit line))) (part_code p)))%Q /\
     (material_total s' == material_total s)%Q /\
     process_total s'
       = (process_total s
          + fst (compute_process_costs (default [] (process_steps p)) processes_map
                   (Qceiling (float qty * default 1%Q (qty_per_unit line)))
                   (part_code p)))%Q /\
     alternatives_export s' = alternatives_export s /\
     warnings s' = warnings s).
Proof.
  split.
  - intros H. unfold priced_by_sheet, material_of. by rewrite H.
  - unfold priced_by_sheet, material_of. intros H.
    unfold part_line, choose_sheet. rewrite H. cbn.
    destruct (compute_process_costs _ _ _ _) as [pcost prows].
    eexists. eexists. split; [reflexivity|].
    split; [reflexivity|]. cbn.
    split; [reflexivity|]. split; [reflexivity|].
    split; [ring|]. split; [ring|]. split; [reflexivity|].
    by rewrite !app_nil_r.
Qed.

Lemma part_without_sheet_pricing_witness :
  priced_by_sheet demo_materials bar_part = false.
Proof.
  apply (part_without_sheet_pricing demo_materials demo_processes 100 no_override
           initial_state 0 bar_line bar_part).
  reflexivity.
Defined.

(** X17.  A part of a sheet-priced material that lists no sheet option is
    priced too: one warning names the line, the material cost is 0 and the
    processes are charged as usual. *)
Theorem by_sheet_without_options (materials_map : gmap string material)
    (processes_map : gmap string process_def) (qty : Z)
    (widgets : nat -> option (sheet_spec * Z)) (s : quote_state) (idx : nat)
    (line : bom_line) (p : part) :
  priced_by_sheet materials_map p = true ->
  default [] (sheet_options (material_of materials_map p)) = [] ->
  exists s' row,
    part_line materials_map processes_map qty widgets s idx line p = Some s' /\
    bom_rows s' = bom_rows s ++ [row] /\
    bom_material_cost row = 0%Q /\
    (bom_line_total row
     == fst (compute_process_costs (default [] (process_steps p)) processes_map
               (Qceiling (float qty * default 1%Q (qty_per_unit line))) (part_code p)))%Q /\
    (material_total s' == material_total s)%Q /\
    process_breakdown s'
      = process_breakdown s
        ++ snd (compute_process_costs (default [] (process_steps p)) processes_map
                  (Qceiling (float qty * default 1%Q (qty_per_unit line))) (part_code p)) /\
    warnings s' = warnings s ++ [NoSheetOptions (code line)].
Proof.
  unfold priced_by_sheet, material_of. intros Hmode Hopts.
  unfold part_line, choose_sheet. rewrite Hmode, Hopts. cbn.
  destruct (compute_process_costs _ _ _ _) as [pcost prows].
  eexists. eexists. split; [reflexivity|].
  split; [reflexivity|]. cbn.
  split; [reflexivity|]. split; [ring|]. split; [ring|].
  split; reflexivity.
Qed.

Lemma by_sheet_without_options_witness :
  exists s' row,
    part_line bare_materials demo_processes 100 no_override initial_state 0
              part_line_1 demo_part = Some s' /\
    bom_rows s' = bom_rows initial_state ++ [row] /\
    bom_material_cost row = 0%Q /\
    (bom_line_total row
     == fst (compute_process_costs (default [] (process_steps demo_part)) demo_processes
               (Qceiling (float 100 * default 1%Q (qty_per_unit part_line_1)))
               (part_code demo_part)))%Q /\
    (material_total s' == material_total initial_state)%Q /\
    process_breakdown s'
      = process_breakdown initial_state
        ++ snd (compute_process_costs (default [] (process_steps demo_part)) demo_processes
                  (Qceiling (float 100 * default 1%Q (qty_per_unit part_line_1)))
                  (part_code demo_part)) /\
    warnings s' = warnings initial_state ++ [NoSheetOptions (code part_line_1)].
Proof.
  apply (by_sheet_without_options bare_materials demo_processes 100 no_override
           initial_state 0 part_line_1 demo_part); reflexivity.
Defined.

Lemma py_max_cases (a b : Q) :
  (a <= py_max a b)%Q /\ (b <= py_max a b)%Q /\ (py_max a b = a \/ py_max a b = b).
Proof.
  unfold py_max. destruct (Qgtb b a) eqn:H.
  - apply Qgtb_gt in H. repeat split; [by apply Qlt_le_weak|apply Qle_refl|by right].
  - apply Qgtb_le in H. repeat split; [apply Qle_refl|exact H|by left].
Qed.

(** X18.  A purchased line is charged for the quantity the order needs or
    for the minimum order quantity of the item, whichever is larger; an
    absent or zero minimum leaves the needed quantity.  The line total is
    that quantity times unit cost times one plus the waste rate, and it is
    what the purchased total grows by. *)
Theorem purchased_line_moq (qty : Z) (s : quote_state) (line : bom_line)
    (item : purchased_item) :
  exists row,
    bom_rows (purchased_line qty s line item) = bom_rows s ++ [row] /\
    (float qty * default 1%Q (qty_per_unit line) <= bom_qty_total row)%Q /\
    (forall moq, moq_qty item = Some moq -> ~ (moq == 0)%Q ->
       (moq <= bom_qty_total row)%Q /\
       (bom_qty_total row = (float qty * default 1%Q (qty_per_unit line))%Q \/
        bom_qty_total row = moq)) /\
    (moq_qty item = None \/ (exists moq, moq_qty item = Some moq /\ (moq == 0)%Q) ->
     bom_qty_total row = (float qty * default 1%Q (qty_per_unit line))%Q) /\
    bom_line_total row
      = (bom_qty_total row * default 0%Q (unit_cost item)
         * (1 + default 0%Q (waste_pct item)))%Q /\
    purchased_total (purchased_line qty s line item)
      = (purchased_total s + bom_line_total row)%Q.
Proof.
  unfold purchased_line. eexists. split; [reflexivity|]. cbn.
  split.
  { destruct (moq_qty item) as [moq|]; [|apply Qle_refl].
    destruct (Qeq_bool moq 0); [apply Qle_refl|apply py_max_cases]. }
  split.
  { intros moq -> Hne.
    destruct (Qeq_bool moq 0) eqn:E; [|apply py_max_cases].
    apply Qeq_bool_iff in E. by destruct Hne. }
  split; [|split; reflexivity].
  intros [-> |(moq & -> & Hz)]; [reflexivity|].
  by rewrite (proj2 (Qeq_bool_iff moq 0) Hz).
Qed.

Lemma purchased_line_moq_witness :
  exists row,
    bom_rows (purchased_line 100 initial_state screw_line screw_item)
      = bom_rows initial_state ++ [row] /\
    (500 <= bom_qty_total row)%Q.
Proof.
  destruct (purchased_line_moq 100 initial_state screw_line screw_item)
    as (row & Hrows & _ & Hmoq & _).
  exists row. split; [exact Hrows|].
  apply (Hmoq 500%Q); [reflexivity|discriminate].
Defined.

(** X19.  A per-carton packaging line counts just enough cartons of the
    carton size in force (that of the rule, or that of the product when the
    rule gives none or 0); its quantity is cartons times the quantity per
    carton.  When no carton size is given at all, the line is kept with a
    total of 0. *)
Theorem per_carton_packaging (prod : product) (qty : Z) (s : quote_state)
    (line : bom_line) (rule : packaging_rule) :
  rule_type rule = per_carton ->
  ((rule_units_per_carton rule = None \/ rule_units_per_carton rule = Some 0) ->
   py_or (rule_units_per_carton rule) (units_per_carton prod) = units_per_carton prod) /\
  (forall upc,
     py_or (rule_units_per_carton rule) (units_per_carton prod) = Some upc -> 0 < upc ->
     exists cartons row,
       bom_rows (packaging_line prod qty s line rule) = bom_rows s ++ [row] /\
       qty <= upc * cartons /\ upc * (cartons - 1) < qty /\
       bom_qty_total row = (float cartons * default 1%Q (rule_qty_per_carton rule))%Q /\
       bom_line_total row = (bom_qty_total row * default 0%Q (rule_unit_cost rule))%Q) /\
  (py_or (rule_units_per_carton rule) (units_per_carton prod) = None \/
   py_or (rule_units_per_carton rule) (units_per_carton prod) = Some 0 ->
   exists row,
     bom_rows (packaging_line prod qty s line rule) = bom_rows s ++ [row] /\
     (bom_line_total row == 0)%Q /\
     warnings (packaging_line prod qty s line rule) = warnings s).
Proof.
  intros Hty. split; [|split].
  - intros [-> | ->]; reflexivity.
  - intros upc Hor Hpos.
    exists (Qceiling (truediv qty upc)). unfold packaging_line. rewrite Hty, Hor.
    rewrite (proj2 (Z.eqb_neq upc 0)) by lia.
    eexists. split; [reflexivity|]. cbn [bom_qty_total bom_line_total].
    destruct (truediv_bounds qty upc (Qceiling (truediv qty upc)) Hpos eq_refl).
    repeat split; done.
  - intros Hor. unfold packaging_line. rewrite Hty.
    eexists. split; [reflexivity|]. cbn [bom_line_total warnings].
    split; [|reflexivity].
    destruct Hor as [-> | ->]; cbn [Z.eqb]; change (float 0) with 0%Q; ring.
Qed.

Lemma per_carton_packaging_witness :
  exists cartons row,
    bom_rows (packaging_line demo_product 100 initial_state carton_line carton_rule)
      = bom_rows initial_state ++ [row] /\
    100 <= 20 * cartons /\ 20 * (cartons - 1) < 100 /\
    bom_qty_total row = (float cartons * default 1%Q (rule_qty_per_carton carton_rule))%Q /\
    bom_line_total row = (bom_qty_total row * default 0%Q (rule_unit_cost carton_rule))%Q.
Proof.
  apply (proj1 (proj2 (per_carton_packaging demo_product 100 initial_state carton_line
                         carton_rule eq_refl)) 20); [reflexivity|lia].
Defined.

(** ** The rollup *)

(** X20.  End to end: for a priced product the subtotal is the sum of the
    line totals of the BOM rows plus the shipping, and the total cost is
    that subtotal with overhead and then tax on top of each other. *)
Theorem quote_subtotal_from_rows (parts : list part)
    (materials : list (string * material)) (processes : list (string * process_def))
    (purchased_items : list purchased_item)
    (per_unit_rules per_carton_rules : list packaging_rule) (tiers : list tier)
    (prod : product) (qty : Z) (widgets : nat -> option (sheet_spec * Z))
    (shipping overhead_pct tax_pct margin_pct : Q) (mode : string)
    (s : quote_state) (r : rollup) :
  quote parts materials processes purchased_items per_unit_rules per_carton_rules
        tiers prod qty widgets shipping overhead_pct tax_pct margin_pct mode
    = Some (s, r) ->
  (subtotal r == Qsum (map bom_line_total (bom_rows s)) + shipping)%Q /\
  (total_cost r
   == (Qsum (map bom_line_total (bom_rows s)) + shipping)
      * (1 + overhead_pct) * (1 + tax_pct))%Q.
Proof.
  unfold quote. intros H.
  destruct (price_bom _ _ _ _ _ _ _ _) as [s0|] eqn:Hprice; [|done].
  cbn in H. injection H as <- <-.
  assert (Hs : totals_add_up s0).
  { unfold price_bom in Hprice.
    eapply (loop_preserves _ _ _ _ _ _ _ _ totals_add_up); [|exact Hprice|].
    - apply step_totals_add_up.
    - apply initial_totals_add_up. }
  unfold totals_add_up in Hs. unfold quote_rollup.
  destruct (find_multiplier tiers qty) as [mult matched].
  cbn [subtotal total_cost]. rewrite <- Hs. split; ring.
Qed.

Lemma quote_subtotal_from_rows_witness :
  exists s r,
    quote [demo_part] [("SS304"%string, {| pricing_mode := Some "by_sheet"%string;
                                         sheet_options := Some demo_sheets |})]
          [("CUT"%string, cut_process)] [screw_item] [] [carton_rule] demo_tiers
          demo_product 100 no_override 120 0.05 0.13 0.18 "gross_margin"
      = Some (s, r) /\
    (subtotal r == Qsum (map bom_line_total (bom_rows s)) + 120)%Q.
Proof.
  eexists. eexists. split; [vm_compute; reflexivity|].
  eapply (quote_subtotal_from_rows [demo_part]
            [("SS304"%string, {| pricing_mode := Some "by_sheet"%string;
                                 sheet_options := Some demo_sheets |})]
            [("CUT"%string, cut_process)] [screw_item] [] [carton_rule] demo_tiers
            demo_product 100 no_override 120 0.05 0.13 0.18 "gross_margin").
  vm_compute. reflexivity.
Defined.

(** X21.  What the margin means in each mode: in gross-margin mode with a
    margin below 1 the profit is the margin's share of the final price, in
    markup mode it is the margin's share of the cost (both after the tier
    multiplier). *)
Theorem margin_share (mat_total proc_total purch_total pack_total : Q)
    (shipping overhead_pct tax_pct margin_pct : Q) (mode : string)
    (tiers : list tier) (qty : Z) :
  let r := quote_rollup mat_total proc_total purch_total pack_total
                        shipping overhead_pct tax_pct margin_pct mode tiers qty in
  (mode = "gross_margin"%string -> (margin_pct < 1)%Q ->
   (final_price_total r - total_cost r * tier_multiplier r
    == margin_pct * final_price_total r)%Q) /\
  (mode <> "gross_margin"%string ->
   (final_price_total r - total_cost r * tier_multiplier r
    == margin_pct * (total_cost r * tier_multiplier r))%Q).
Proof.
  intros r. subst r. unfold quote_rollup.
  destruct (find_multiplier tiers qty) as [mult matched].
  cbn [total_cost tier_multiplier final_price_total].
  split.
  - intros -> Hm. rewrite (proj1 (margin_price_gross_margin _ _) Hm). field. lra.
  - intros Hmode. rewrite (margin_price_markup _ _ _ Hmode). ring.
Qed.

Lemma margin_share_witness :
  (final_price_total (quote_rollup 1000 200 0 50 120 0.05 0.13 0.18 "gross_margin"
                                   demo_tiers 100)
   - total_cost (quote_rollup 1000 200 0 50 120 0.05 0.13 0.18 "gross_margin"
                              demo_tiers 100)
     * tier_multiplier (quote_rollup 1000 200 0 50 120 0.05 0.13 0.18 "gross_margin"
                                     demo_tiers 100)
   == 0.18 * final_price_total (quote_rollup 1000 200 0 50 120 0.05 0.13 0.18
                                             "gross_margin" demo_tiers 100))%Q.
Proof.
  apply (margin_share 1000 200 0 50 120 0.05 0.13 0.18 "gross_margin" demo_tiers 100);
    reflexivity.
Defined.

(** X22.  For a cost that is not negative and a margin from 0 up to, but
    not reaching, 1 the gross-margin price is never below the markup price;
    from a margin of 1 on it is the other way round, the gross-margin price
    having fallen back to the cost. *)
Theorem gross_margin_against_markup (cost m : Q) :
  (0 <= cost)%Q ->
  ((0 <= m)%Q -> (m < 1)%Q ->
   (margin_price "markup" cost m <= margin_price "gross_margin" cost m)%Q) /\
  ((1 <= m)%Q ->
   (margin_price "gross_margin" cost m <= margin_price "markup" cost m)%Q).
Proof.
  intros Hc. rewrite margin_price_markup by discriminate. split.
  - intros H0 H1. rewrite (proj1 (margin_price_gross_margin cost m) H1).
    apply Qle_shift_div_l; [lra|].
    assert (H : (0 <= cost * (m * m))%Q).
    { apply Qmult_le_0_compat; [exact Hc|]. by apply Qmult_le_0_compat. }
    lra.
  - intros H1. rewrite (proj2 (margin_price_gross_margin cost m) H1).
    assert (H : (0 <= cost * m)%Q) by (apply Qmult_le_0_compat; lra).
    lra.
Qed.

Lemma gross_margin_against_markup_witness :
  (margin_price "markup" 1625.505 0.18 <= margin_price "gross_margin" 1625.505 0.18)%Q.
Proof.
  apply (gross_margin_against_markup 1625.505 0.18); vm_compute; congruence.
Defined.

(** ** The catalogue maps *)

Lemma fold_insert_lookup {V W : Type} (key : V -> string) (f : V -> W)
    (l : list V) (m0 : gmap string W) (k : string) :
  fold_left (fun m v => <[key v := f v]> m) l m0 !! k
  = match last (List.filter (fun v => String.eqb (key v) k) l) with
    | Some v => Some (f v)
    | None => m0 !! k
    end.
Proof.
  induction l as [|x l IH] using rev_ind; [done|].
  rewrite fold_left_app, List.filter_app. cbn [fold_left List.filter].
  rewrite lookup_insert. destruct (String.eqb (key x) k) eqn:Hk.
  - apply String.eqb_eq in Hk. rewrite decide_True by done. by rewrite last_snoc.
  - apply String.eqb_neq in Hk. rewrite decide_False by done.
    by rewrite app_nil_r.
Qed.

(** X23.  Looking a code up in a catalogue map built by [index_by] gives the
    last record of the list that carries the code: a later record replaces
    an earlier one, the record found has the code asked for, and a code no
    record carries is not found. *)
Theorem index_by_last_wins {V : Type} (key : V -> string) (l : list V) (k : string) :
  index_by key l !! k = last (List.filter (fun v => String.eqb (key v) k) l) /\
  (forall v, index_by key l !! k = Some v -> key v = k /\ In v l) /\
  (index_by key l !! k = None <-> forall v, In v l -> key v <> k).
Proof.
  assert (H : index_by key l !! k = last (List.filter (fun v => String.eqb (key v) k) l)).
  { unfold index_by. rewrite (fold_insert_lookup key (fun v => v)).
    by destruct (last _). }
  split; [exact H|]. rewrite H. split.
  - intros v Hv%last_Some_elem_of%list_elem_of_In%filter_In.
    destruct Hv as [Hin Hk]. by apply String.eqb_eq in Hk.
  - rewrite last_None. split.
    + intros Hnil v Hin Hk.
      assert (Hf : In v (List.filter (fun v => String.eqb (key v) k) l)).
      { apply filter_In. split; [done|]. by apply String.eqb_eq. }
      rewrite Hnil in Hf. destruct Hf.
    + intros Hno. destruct (List.filter _ l) as [|v rest] eqn:Hf; [done|].
      assert (Hv : In v (List.filter (fun v => String.eqb (key v) k) l))
        by (rewrite Hf; by left).
      apply filter_In in Hv as [Hin Hk]. apply String.eqb_eq in Hk.
      by destruct (Hno v Hin).
Qed.

Lemma index_by_last_wins_witness :
  item_code screw_item = "SCREW"%string /\ In screw_item [old_screw_item; screw_item].
Proof.
  apply (index_by_last_wins item_code [old_screw_item; screw_item] "SCREW").
  vm_compute. reflexivity.
Defined.


(** ** The quote cart *)

Lemma lines_subtotal_from (cart : list quote_line) (acc : Q) :
  (fold_left (fun a l => (a + ql_line_total l)%Q) cart acc
   == acc + Qsum (map ql_line_total cart))%Q.
Proof.
  revert acc. induction cart as [|l cart IH]; intros acc; cbn [fold_left map Qsum].
  - ring.
  - rewrite IH. ring.
Qed.

Lemma lines_subtotal_sum (cart : list quote_line) :
  (lines_subtotal cart == Qsum (map ql_line_total cart))%Q.
Proof. unfold lines_subtotal. rewrite lines_subtotal_from. ring. Qed.

(** X25.  The add button appends one line, numbered one more than the
    lines already in the cart and carrying the final price as its total;
    a cart whose ids are 1, 2, ... in order stays so, and its subtotal
    grows by the final price. *)
Theorem add_quote_line_appends (cart : list quote_line) (prod : product) (qty : Z)
    (s : quote_state) (r : rollup) (margin_pct tax_pct overhead_pct scrap_rate : Q) :
  (exists l,
     add_quote_line cart prod qty s r margin_pct tax_pct overhead_pct scrap_rate
       = cart ++ [l] /\
     line_id l = Z.of_nat (length cart) + 1 /\
     ql_line_total l = final_price_total r /\
     ql_unit_price l = unit_price r /\
     ql_qty l = qty) /\
  (sequential_ids cart ->
   sequential_ids
     (add_quote_line cart prod qty s r margin_pct tax_pct overhead_pct scrap_rate)) /\
  (lines_subtotal
     (add_quote_line cart prod qty s r margin_pct tax_pct overhead_pct scrap_rate)
   == lines_subtotal cart + final_price_total r)%Q.
Proof.
  split; [|split].
  - eexists. split; [reflexivity|]. by cbn.
  - unfold sequential_ids, add_quote_line. intros H.
    rewrite List.map_app, length_app, H. cbn [length map].
    rewrite Nat.add_1_r, seq_S, List.map_app. cbn [map line_id].
    f_equal. f_equal. lia.
  - rewrite !lines_subtotal_sum. unfold add_quote_line.
    rewrite List.map_app, Qsum_app. cbn. ring.
Qed.

Lemma add_quote_line_appends_witness : sequential_ids cart_of_three.
Proof.
  apply (add_quote_line_appends
           (add_quote_line
              (add_quote_line [] demo_product 100 initial_state demo_rollup
                              0.18 0.13 0.05 0.03)
              demo_product 50 initial_state demo_rollup 0.18 0.13 0.05 0.03)
           demo_product 10 initial_state demo_rollup 0.18 0.13 0.05 0.03).
  reflexivity.
Defined.

(** X26.  The delete button removes every line that carries the selected
    id and nothing else, keeping the order of the rest; the subtotal falls
    by the totals of the lines removed. *)
Theorem delete_quote_line_removes (selected : Z) (cart : list quote_line) :
  (forall l, In l (delete_quote_line selected cart)
             <-> In l cart /\ line_id l <> selected) /\
  sublist (delete_quote_line selected cart) cart /\
  (lines_subtotal (delete_quote_line selected cart)
   == lines_subtotal cart
      - Qsum (map ql_line_total
                  (List.filter (fun l => line_id l =? selected) cart)))%Q.
Proof.
  unfold delete_quote_line. split; [|split].
  - intros l. rewrite filter_In, negb_true_iff, Z.eqb_neq. done.
  - induction cart as [|l cart IH]; cbn [List.filter]; [constructor|].
    destruct (negb _); by constructor.
  - rewrite !lines_subtotal_sum.
    induction cart as [|l cart IH]; cbn [List.filter map Qsum]; [ring|].
    destruct (line_id l =? selected); cbn [negb map Qsum]; rewrite IH; ring.
Qed.

Lemma seq_ids_not_in (k : Z) (a n : nat) :
  k < Z.of_nat a ->
  List.filter (fun i => negb (i =? k)) (map Z.of_nat (seq a n)) = map Z.of_nat (seq a n).
Proof.
  revert a. induction n as [|n IH]; intros a Hk; [done|].
  cbn [seq map List.filter].
  rewrite (proj2 (Z.eqb_neq (Z.of_nat a) k)) by lia. cbn [negb].
  rewrite IH by lia. done.
Qed.

Lemma seq_ids_delete_length (k : Z) (a n : nat) :
  Z.of_nat a <= k < Z.of_nat (a + n) ->
  length (List.filter (fun i => negb (i =? k)) (map Z.of_nat (seq a n))) = pred n.
Proof.
  revert a. induction n as [|n IH]; intros a Hk; [lia|].
  cbn [seq map List.filter].
  destruct (Z.of_nat a =? k) eqn:E; cbn [negb].
  - apply Z.eqb_eq in E. rewrite seq_ids_not_in by lia.
    by rewrite length_map, length_seq.
  - apply Z.eqb_neq in E. cbn [length]. rewrite IH by lia. lia.
Qed.

Lemma filter_ids (k : Z) (cart : list quote_line) :
  map line_id (List.filter (fun l => negb (line_id l =? k)) cart)
  = List.filter (fun i => negb (i =? k)) (map line_id cart).
Proof.
  induction cart as [|l cart IH]; [done|].
  cbn [List.filter map]. destruct (negb _); cbn [map]; by rewrite IH.
Qed.

(** X27.  Ids are not kept unique: after a line other than the last is
    deleted from a cart numbered 1, 2, ..., n, the next line added is
    numbered n again, like the last line still in the cart. *)
Theorem line_id_reused_after_delete (cart : list quote_line) (selected : Z)
    (prod : product) (qty : Z) (s : quote_state) (r : rollup)
    (margin_pct tax_pct overhead_pct scrap_rate : Q) :
  sequential_ids cart ->
  1 <= selected < Z.of_nat (length cart) ->
  exists old new,
    add_quote_line (delete_quote_line selected cart) prod qty s r
                   margin_pct tax_pct overhead_pct scrap_rate
      = delete_quote_line selected cart ++ [new] /\
    In old (delete_quote_line selected cart) /\
    line_id old = Z.of_nat (length cart) /\
    line_id new = Z.of_nat (length cart).
Proof.
  unfold sequential_ids. intros Hseq Hsel.
  assert (Hlen : length (delete_quote_line selected cart) = pred (length cart)).
  { unfold delete_quote_line.
    rewrite <- (length_map line_id), filter_ids, Hseq.
    apply seq_ids_delete_length. lia. }
  assert (Hold : In (Z.of_nat (length cart)) (map line_id cart)).
  { rewrite Hseq. apply in_map, in_seq. lia. }
  apply in_map_iff in Hold as (old & Hid & Hin).
  eexists old, _. split; [reflexivity|]. split; [|split; [exact Hid|]].
  - unfold delete_quote_line. apply filter_In. split; [exact Hin|].
    apply negb_true_iff, Z.eqb_neq. lia.
  - cbn [line_id]. rewrite Hlen. lia.
Qed.

Lemma line_id_reused_after_delete_witness :
  exists old new,
    add_quote_line (delete_quote_line 1 cart_of_three) demo_product 5 initial_state
                   demo_rollup 0.18 0.13 0.05 0.03
      = delete_quote_line 1 cart_of_three ++ [new] /\
    In old (delete_quote_line 1 cart_of_three) /\
    line_id old = Z.of_nat (length cart_of_three) /\
    line_id new = Z.of_nat (length cart_of_three).
Proof.
  apply (line_id_reused_after_delete cart_of_three 1 demo_product 5 initial_state
           demo_rollup 0.18 0.13 0.05 0.03); [reflexivity|cbn; lia].
Defined.

(** ** The template-driven variant *)

(** X28.  The template-driven [calculate_quote] rolls its costs up exactly
    as the BOM-driven rollup does with no purchased items: fed with the
    material, process and packaging costs of the template quote, the
    rollup of [app.py] gives the same subtotal, overhead, tax, total cost,
    final price, unit price, multiplier and matched tier. *)
Theorem calculate_quote_rollup_agrees (tpl : AppBackup.template) (qty : Z)
    (scrap_rate overhead_pct tax_pct margin_pct : Q) (mode : string)
    (packaging_per_piece shipping : Q)
    (materials_map : gmap string AppBackup.weight_material)
    (processes_map : gmap string process_def) (tiers : list tier)
    (inputs : gmap string AppBackup.process_input) :
  let '(sm, rows, matched) :=
    AppBackup.calculate_quote tpl qty scrap_rate overhead_pct tax_pct margin_pct mode
                              packaging_per_piece shipping materials_map processes_map
                              tiers inputs in
  let r := quote_rollup (AppBackup.sum_material_cost sm) (AppBackup.sum_process_cost sm)
                        0 (AppBackup.sum_packaging_cost sm) shipping overhead_pct
                        tax_pct margin_pct mode tiers qty in
  (AppBackup.sum_subtotal sm == subtotal r)%Q /\
  (AppBackup.sum_overhead sm == overhead r)%Q /\
  (AppBackup.sum_pre_tax sm == pre_tax r)%Q /\
  (AppBackup.sum_tax sm == tax r)%Q /\
  (AppBackup.sum_total_cost sm == total_cost r)%Q /\
  (AppBackup.sum_final_price_total sm == final_price_total r)%Q /\
  (AppBackup.sum_unit_price sm == unit_price r)%Q /\
  AppBackup.sum_multiplier sm = tier_multiplier r /\
  matched = matched_tier r /\
  (AppBackup.sum_process_cost sm, rows)
    = AppBackup.compute_process_costs (default [] (AppBackup.default_processes tpl))
                                      processes_map qty inputs.
Proof.
  unfold AppBackup.calculate_quote, quote_rollup, margin_price.
  destruct (AppBackup.compute_process_costs _ _ _ _) as [pcost prows].
  change (AppBackup.find_multiplier tiers qty) with (find_multiplier tiers qty).
  destruct (find_multiplier tiers qty) as [mult matched].
  cbn [AppBackup.sum_material_cost AppBackup.sum_process_cost AppBackup.sum_packaging_cost
       AppBackup.sum_subtotal AppBackup.sum_overhead AppBackup.sum_pre_tax
       AppBackup.sum_tax AppBackup.sum_total_cost AppBackup.sum_final_price_total
       AppBackup.sum_unit_price AppBackup.sum_multiplier
       subtotal overhead pre_tax tax total_cost final_price_total unit_price
       tier_multiplier matched_tier].
  split; [ring|]. split; [ring|]. split; [ring|]. split; [ring|]. split; [ring|].
  assert (Hq : qty <> 0 -> ~ (float qty == 0)%Q).
  { intros Hq. unfold float. change 0%Q with (inject_Z 0). by rewrite inject_Z_injective. }
  destruct (String.eqb mode "gross_margin").
  - destruct (Qltb margin_pct 1) eqn:Hm.
    + apply Qltb_lt in Hm.
      split; [field; lra|].
      split; [|done].
      destruct (qty =? 0) eqn:E; [reflexivity|].
      apply Z.eqb_neq, Hq in E. field. split; [lra|exact E].
    + split; [ring|]. split; [|done].
      destruct (qty =? 0) eqn:E; [reflexivity|].
      apply Z.eqb_neq, Hq in E. by field.
  - split; [ring|]. split; [|done].
    destruct (qty =? 0) eqn:E; [reflexivity|].
    apply Z.eqb_neq, Hq in E. by field.
Qed.

Lemma backup_skips_disabled (processes_map : gmap string process_def) (qty : Z)
    (user_inputs : gmap string AppBackup.process_input)
    (acc : Q * list AppBackup.template_row) (proc : AppBackup.template_process)
    (ui : AppBackup.process_input) :
  user_inputs !! AppBackup.tp_process_code proc = Some ui ->
  AppBackup.ui_enabled ui = Some false ->
  AppBackup.process_body processes_map qty user_inputs acc proc = acc.
Proof.
  intros Hui Hen. unfold AppBackup.process_body. destruct acc as [total breakdown].
  destruct (processes_map !! _); [|done]. rewrite Hui. cbn. by rewrite Hen.
Qed.

(** X29.  In the template-driven variant a process whose code is not in
    the catalogue, or which the user has switched off, is dropped: rows and
    total are those of the list without it. *)
Theorem backup_drops_unknown_or_disabled (l1 l2 : list AppBackup.template_process)
    (proc : AppBackup.template_process) (processes_map : gmap string process_def)
    (qty : Z) (inputs : gmap string AppBackup.process_input) :
  processes_map !! AppBackup.tp_process_code proc = None \/
  (exists ui, inputs !! AppBackup.tp_process_code proc = Some ui /\
              AppBackup.ui_enabled ui = Some false) ->
  AppBackup.compute_process_costs (l1 ++ proc :: l2) processes_map qty inputs
  = AppBackup.compute_process_costs (l1 ++ l2) processes_map qty inputs.
Proof.
  intros H. unfold AppBackup.compute_process_costs.
  rewrite !fold_left_app. cbn [fold_left]. f_equal.
  destruct H as [H|(ui & Hui & Hen)].
  - by apply backup_skips_unknown_code.
  - by eapply backup_skips_disabled.
Qed.

Lemma backup_drops_unknown_or_disabled_witness :
  AppBackup.compute_process_costs
    ([ {| AppBackup.tp_process_code := "CUT"; AppBackup.tp_minutes := Some 2%Q |} ]
     ++ {| AppBackup.tp_process_code := "P404"; AppBackup.tp_minutes := Some 5%Q |} :: [])
    demo_processes 10 ∅
  = AppBackup.compute_process_costs
      ([ {| AppBackup.tp_process_code := "CUT"; AppBackup.tp_minutes := Some 2%Q |} ] ++ [])
      demo_processes 10 ∅.
Proof.
  apply (backup_drops_unknown_or_disabled
           [ {| AppBackup.tp_process_code := "CUT"; AppBackup.tp_minutes := Some 2%Q |} ]
           []
           {| AppBackup.tp_process_code := "P404"; AppBackup.tp_minutes := Some 5%Q |}
           demo_processes 10 ∅).
  left. reflexivity.
Defined.

Example demo_template_quote :
  let '(sm, rows, matched) :=
    AppBackup.calculate_quote demo_template 100 0.03 0.05 0.13 0.18 "markup" 0.6 120
                              demo_weight_materials demo_processes demo_tiers ∅ in
  (AppBackup.sum_material_cost sm == 1236)%Q /\
  (AppBackup.sum_process_cost sm == 340)%Q /\
  (AppBackup.sum_packaging_cost sm == 60)%Q /\
  length rows = 1%nat /\
  (AppBackup.sum_multiplier sm == 0.9)%Q.
Proof. vm_compute. repeat split. Qed.

(** ** The engineering override *)



